(** * Farcaster Connect: verification of signed sign-in messages

    A shallow embedding of [packages/connect/src/messages/verify.ts]
    (and of the oracle shape declared in [clients/ethereum/viem.ts]).

    The TypeScript code is asynchronous, mutates one response object in
    place and reports failures through three channels: neverthrow
    [Result] values, rejected promises and thrown exceptions.  The
    embedding keeps the three apart:

    - [Result]: neverthrow's [ok]/[err];
    - [Promise]: a promise, [Resolved], [Rejected] or left [Pending];
    - [Completion]: how the evaluation of an expression ends: [Normal],
      [Thrown], or [Waiting] at an [await] that is never resumed;
    - [M]: a state monad over the object store and the event trace,
      whose computations end in a [Completion]. *)

From stdpp Require Import base strings gmap list pretty.

Open Scope string_scope.

(** ** Errors *)

(** The error codes of [ConnectError] ([../errors]). *)
Inductive ConnectErrorName :=
  | unauthorized
  | unavailable
  | malformed
  | bad_request
  | invalid_parameter.

(** A JavaScript [Error] value, as far as the code looks at it. *)
Record JsError := mkError { err_message : string }.

(** What is thrown, or what a promise is rejected with.  Any JavaScript
    value can be; the code hands it to the constructor of
    [ConnectError], which tells these three kinds apart.  Numbers,
    booleans and objects that are no [Error] are not modelled. *)
Inductive JsValue :=
  | Nullish
  | ErrorObject (e : JsError)
  | StringValue (s : string).

(** The second argument of [new ConnectError(errCode, context)]: the code
    passes either a message string or the caught [Error]. *)
Inductive ErrContext :=
  | CtxMessage (msg : string)
  | CtxCause (cause : JsError).

Record ConnectError := mkConnectError {
  errCode : ConnectErrorName;
  context : ErrContext
}.

(** The human readable message of a [ConnectError]: the string it was
    built from, or the message of the wrapped cause. *)
Definition message_of (e : ConnectError) : string :=
  match context e with
  | CtxMessage s => s
  | CtxCause c => err_message c
  end.

(** ** neverthrow results *)

Inductive Result (A : Type) :=
  | Ok (value : A)
  | Err (error : ConnectError).
Arguments Ok {A} value.
Arguments Err {A} error.

(** [r.andThen(f)] *)
Definition andThen {A B} (r : Result A) (f : A → Result B) : Result B :=
  match r with
  | Ok a => f a
  | Err e => Err e
  end.

(** ** Promises and completions *)

Inductive Promise (A : Type) :=
  | Resolved (value : A)
  | Rejected (reason : JsValue)
  | Pending.
Arguments Resolved {A} value.
Arguments Rejected {A} reason.
Arguments Pending {A}.

Inductive Completion (A : Type) :=
  | Normal (value : A)
  | Thrown (exn : JsValue)
  | Waiting.
Arguments Normal {A} value.
Arguments Thrown {A} exn.
Arguments Waiting {A}.

(** The [TypeError] of reading a property of [undefined] or [null]. *)
Definition nullish_context : JsError :=
  mkError "TypeError: Cannot read properties of undefined".

(** Modelled from the spec: the class [ConnectError] of [../errors] is
    not among the sources.  The spec gives an error a kind and a
    human-readable message and has it wrap the original error.
    [verify.ts] calls the constructor with a message string (lines 42,
    49, 57, 65) and with whatever a promise was rejected with, cast to
    [Error] (lines 77, 87).  Given a string it takes it as the
    message, given an [Error] it wraps it; given [undefined] or [null]
    it has nothing to read a message from and throws a [TypeError]. *)
Definition newConnectError (errCode : ConnectErrorName) (context : JsValue)
  : Completion ConnectError :=
  match context with
  | StringValue s => Normal (mkConnectError errCode (CtxMessage s))
  | ErrorObject e => Normal (mkConnectError errCode (CtxCause e))
  | Nullish => Thrown (ErrorObject nullish_context)
  end.

(** [ResultAsync.fromPromise(p, errorFn)]: a fulfilment becomes an
    [ok], a rejection the [err] that [errorFn] makes of the reason;
    where [errorFn] throws, the resulting promise is rejected with what
    it threw. *)
Definition fromPromise {A} (p : Promise A)
    (errorFn : JsValue → Completion ConnectError) : Promise (Result A) :=
  match p with
  | Resolved a => Resolved (Ok a)
  | Rejected reason =>
      match errorFn reason with
      | Normal e => Resolved (Err e)
      | Thrown exn => Rejected exn
      | Waiting => Pending
      end
  | Pending => Pending
  end.

(** ** Messages and responses *)

Definition Hex := string.

(** [providers.JsonRpcProvider(rpc, network)] as built in [viem.ts]. *)
Record Provider := JsonRpcProvider {
  rpc : string;
  chainId_of : Z;
  name_of : string
}.

(** The fields of siwe's [SiweMessage]. *)
Record SiweMessage := mkSiweMessage {
  domain : string;
  address : string;
  statement : option string;
  uri : string;
  version : string;
  chainId : Z;
  nonce : string;
  issuedAt : option string;
  expirationTime : option string;
  notBefore : option string;
  requestId : option string;
  resources : option (list string)
}.

(** [Partial<SiweMessage>]: every field optional. *)
Record PartialSiweMessage := mkPartial {
  p_domain : option string;
  p_address : option string;
  p_statement : option string;
  p_uri : option string;
  p_version : option string;
  p_chainId : option Z;
  p_nonce : option string;
  p_issuedAt : option string;
  p_expirationTime : option string;
  p_notBefore : option string;
  p_requestId : option string;
  p_resources : option (list string)
}.

(** [message: string | Partial<SiweMessage>] *)
Inductive MessageInput :=
  | MsgText (text : string)
  | MsgObject (fields : PartialSiweMessage).

(** siwe's [SiweError(type, expected?, received?)]. *)
Record SiweError := mkSiweError {
  type : string;
  expected : option string;
  received : option string
}.

(** siwe's [SiweResponse]. *)
Record SiweResponse := mkSiweResponse {
  success : bool;
  error : option SiweError;
  data : SiweMessage
}.

(** A JavaScript number, by what the code does with one: it converts
    it with [BigInt], and it renders it, in a template literal and with
    [toString()].  [integer_value] is the integer the number is, if it
    is one; [NaN], the infinities and fractions are none.  [rendering]
    is the text JavaScript gives the number: the decimal numeral for an
    integer of magnitude up to 2^53, the shortest digits that read back
    as the number beyond that, in exponent form from 1e21 on, and
    "Infinity" or "NaN". *)
Record JsNumber := mkNumber {
  integer_value : option Z;
  rendering : string
}.

(** The number that is the integer [z], for [z] of magnitude up to
    2^53. *)
Definition integer (z : Z) : JsNumber := mkNumber (Some z) (pretty z).

(** Modelled from the spec: the type [FarcasterResourceParams] of
    [./build] is not among the sources.  The spec gives the resource
    claims as "a claimed numeric identifier (fid)"; it is the only
    claim the code reads, and the code treats it as a number. *)
Record FarcasterResourceParams := mkResources {
  fid : JsNumber
}.

(** [SiweResponse & FarcasterResourceParams]: the object built by the
    spread [{ ...resources, ...response }].  It lives in the store, since
    [verifyFidOwner] assigns to its [success] and [error] properties. *)
Record MergedResponse := mkMerged {
  m_fid : JsNumber;
  m_success : bool;
  m_error : option SiweError;
  m_data : SiweMessage
}.

(** [VerifyResponse = Omit<SiweResponse, "error"> & FarcasterResourceParams] *)
Record VerifyResponse := mkVerifyResponse {
  r_fid : JsNumber;
  r_success : bool;
  r_data : SiweMessage
}.

(** ** Store, trace and the evaluation monad *)

Definition loc := nat.

(** What the code does that is visible from outside its return value.
    [EvCompareFid] is the comparison of two big integers at line 89,
    once [BigInt] has converted the claimed fid. *)
Inductive Event :=
  | EvSiweVerify (m : SiweMessage) (signature : string) (provider : option Provider)
  | EvConsoleLog (o : MergedResponse)
  | EvGetFid (custody : Hex)
  | EvCompareFid (resolved : Z) (claimed : Z).

Record State := mkState {
  heap : gmap loc MergedResponse;
  next : loc;
  trace : list Event
}.

Definition initial : State := mkState ∅ 0 [].

Definition M (A : Type) : Type := State → Completion A * State.

#[global] Instance M_ret : MRet M := λ A a s, (Normal a, s).
#[global] Instance M_bind : MBind M := λ A B f c s,
  match c s with
  | (Normal a, s') => f a s'
  | (Thrown e, s') => (Thrown e, s')
  | (Waiting, s') => (Waiting, s')
  end.

(** A call of a function that is not under our control: it returns,
    throws, or does not come back. *)
Definition call {A} (c : Completion A) : M A := λ s, (c, s).

Definition emit (ev : Event) : M unit := λ s,
  (Normal (), mkState (heap s) (next s) (trace s ++ [ev])).

(** An object literal allocates a fresh object. *)
Definition alloc (o : MergedResponse) : M loc := λ s,
  (Normal (next s), mkState (<[next s := o]> (heap s)) (S (next s)) (trace s)).

(** Reading through a reference that does not denote an object is a
    [TypeError]. *)
Definition deref (l : loc) : M MergedResponse := λ s,
  match heap s !! l with
  | Some o => (Normal o, s)
  | None => (Thrown (ErrorObject nullish_context), s)
  end.

Definition assign (l : loc) (o : MergedResponse) : M unit := λ s,
  (Normal (), mkState (<[l := o]> (heap s)) (next s) (trace s)).

(** An [async] function: whatever its body does, the caller gets a
    promise; an exception in the body rejects it, and a body that
    waits for ever leaves it pending. *)
Definition async {A} (body : M A) : M (Promise A) := λ s,
  match body s with
  | (Normal a, s') => (Normal (Resolved a), s')
  | (Thrown e, s') => (Normal (Rejected e), s')
  | (Waiting, s') => (Normal Pending, s')
  end.

(** [await p]: the value of a fulfilled promise, or the rejection reason
    thrown at the point of the [await]; on a promise that is never
    settled the evaluation does not go on. *)
Definition await {A} (p : Promise A) : M A :=
  match p with
  | Resolved a => mret a
  | Rejected e => call (Thrown e)
  | Pending => call Waiting
  end.

(** [return x] in an [async] function whose [x] is itself a promise (a
    [ResultAsync] is one): the outer promise adopts its state. *)
Definition adopt {A} (p : Promise A) : M A := await p.

(** ** The oracle and the options of [verify] *)

(** [getFid: (custody: Hex) => Promise<BigInt>], supplied by the caller.
    A call of it either throws or returns a promise, which in turn is
    fulfilled with the owner's fid, rejected, or never settled. *)
Definition FidVerifier := Hex → Completion (Promise Z).

Record SignInOpts := mkOpts {
  getFid : FidVerifier;
  provider : option Provider
}.

(** [const voidVerifyFid = (_custody) => Promise.reject(new Error(...))] *)
Definition voidVerifyFid : FidVerifier := λ _custody,
  Normal (Rejected (ErrorObject
    (mkError "Not implemented: Must provide an fid verifier"))).

(** [viem.ts]: [getFid] is an [async] arrow function around the
    registry read, so a failure of the read, thrown or rejected, always
    reaches the caller as a rejected promise. *)
Definition viem_getFid (readContract : Hex → Completion (Promise Z)) : FidVerifier :=
  λ custody,
    match readContract custody with
    | Normal p => Normal p
    | Thrown e => Normal (Rejected e)
    | Waiting => Normal Pending
    end.

(** The [RangeError] of [BigInt] on a number that is no integer. *)
Definition not_an_integer (x : JsNumber) : JsError :=
  mkError ("RangeError: The number " +:+ rendering x +:+
           " cannot be converted to a BigInt because it is not an integer").

(** [BigInt(x)] of a number: the integer it is, exactly, or a
    [RangeError]. *)
Definition BigInt (x : JsNumber) : Completion Z :=
  match integer_value x with
  | Some z => Normal z
  | None => Thrown (ErrorObject (not_an_integer x))
  end.

(** [x.toString()] and [`${x}`] of a number, and [toString()] of a big
    integer, which is its decimal numeral. *)
Definition Number_toString (x : JsNumber) : string := rendering x.
Definition BigInt_toString (z : Z) : string := pretty z.

(** ** The verification pipeline *)

(** The template literal
    [`Invalid resource: signer ${signer} does not own fid ${response.fid}.`] *)
Definition ownership_message (signer : Hex) (claimed : JsNumber) : string :=
  "Invalid resource: signer " +:+ signer +:+
  " does not own fid " +:+ Number_toString claimed +:+ ".".

Definition validateNonce (message : SiweMessage) (nonce' : string) : Result SiweMessage :=
  if bool_decide (nonce message ≠ nonce')
  then Err (mkConnectError unauthorized (CtxMessage "Invalid nonce"))
  else Ok message.

Definition validateDomain (message : SiweMessage) (domain' : string) : Result SiweMessage :=
  if bool_decide (domain message ≠ domain')
  then Err (mkConnectError unauthorized (CtxMessage "Invalid domain"))
  else Ok message.

(** [const { error, ...response } = fid.value] *)
Definition omit_error (o : MergedResponse) : VerifyResponse :=
  mkVerifyResponse (m_fid o) (m_success o) (m_data o).

(** [x.error?.type ?? fallback] *)
Definition error_type_or (o : MergedResponse) (fallback : string) : string :=
  match m_error o with
  | Some e => type e
  | None => fallback
  end.

Section Verify.

(** [validate] and [parseResources] come from [./validate], which is
    not among the sources; [message.verify] is siwe's.  The pipeline
    is verified for any behaviour of the three.  siwe's [verify] is
    an [async] method: all it can do to its caller is settle the
    promise it returns, or leave it pending. *)
Variable validate : MessageInput → Result SiweMessage.
Variable parseResources : SiweMessage → Result FarcasterResourceParams.
Variable siwe_verify : SiweMessage → string → option Provider → Promise SiweResponse.

Definition verifySiweMessage (message : SiweMessage) (signature : string)
    (provider : option Provider) : M (Promise (Result SiweResponse)) :=
  async (
    _ ← emit (EvSiweVerify message signature provider);
    adopt (fromPromise (siwe_verify message signature provider)
             (λ e, newConnectError unauthorized e))).

(** The spread [{ ...resources, ...response }] makes a new object. *)
Definition mergeResources (response : SiweResponse) : M (Result loc) :=
  match parseResources (data response) with
  | Err e => mret (Err e)
  | Ok resources =>
      l ← alloc (mkMerged (fid resources) (success response) (error response)
                   (data response));
      mret (Ok l)
  end.

(** The callback given to [andThen] in [verifyFidOwner]: it writes to
    the object [response] refers to and hands the same reference on.
    The conversion of the claimed fid may throw, before anything is
    written. *)
Definition checkOwner (response : loc) (signer : Hex) (fid' : Z) : M (Result loc) :=
  o ← deref response;
  claimed ← call (BigInt (m_fid o));
  _ ← emit (EvCompareFid fid' claimed);
  if bool_decide (fid' ≠ claimed) then
    _ ← assign response (mkMerged (m_fid o) false (m_error o) (m_data o));
    o1 ← deref response;
    _ ← assign response
          (mkMerged (m_fid o1) (m_success o1)
             (Some (mkSiweError
                      (ownership_message signer (m_fid o1))
                      (Some (Number_toString (m_fid o1)))
                      (Some (BigInt_toString fid'))))
             (m_data o1));
    mret (Ok response)
  else mret (Ok response).

Definition verifyFidOwner (response : loc) (fidVerifier : FidVerifier)
  : M (Promise (Result loc)) :=
  async (
    o ← deref response;
    let signer := address (m_data o) in
    _ ← emit (EvGetFid signer);
    p ← call (fidVerifier signer);
    r ← adopt (fromPromise p (λ e, newConnectError unavailable e));
    match r with
    | Err e => mret (Err e)
    | Ok fid' => checkOwner response signer fid'
    end).

Definition verify (nonce' domain' : string) (message : MessageInput)
    (signature : string) (options : option SignInOpts)
  : M (Promise (Result VerifyResponse)) :=
  async (
    let options := default (mkOpts voidVerifyFid None) options in
    let valid :=
      andThen (andThen (validate message) (λ m, validateNonce m nonce'))
              (λ m, validateDomain m domain') in
    match valid with
    | Err e => mret (Err e)
    | Ok valid_value =>
        p ← verifySiweMessage valid_value signature (provider options);
        r ← await p;
        siwe ← match r with
               | Err e => mret (Err e)
               | Ok response => mergeResources response
               end;
        match siwe with
        | Err e => mret (Err e)
        | Ok siwe_value =>
            o ← deref siwe_value;
            if negb (m_success o) then
              _ ← emit (EvConsoleLog o);
              mret (Err (mkConnectError unauthorized
                           (CtxMessage (error_type_or o "Failed to verify SIWE message"))))
            else
              q ← verifyFidOwner siwe_value (getFid options);
              fid' ← await q;
              match fid' with
              | Err e => mret (Err e)
              | Ok fid_value =>
                  o1 ← deref fid_value;
                  if negb (m_success o1) then
                    o2 ← deref siwe_value;
                    mret (Err (mkConnectError unauthorized
                                 (CtxMessage (error_type_or o2 "Failed to validate fid owner"))))
                  else
                    o3 ← deref fid_value;
                    mret (Ok (omit_error o3))
              end
        end
    end).

End Verify.

(** ** Running a computation *)

(** The completion of [c] started in [s], with the events it added to
    the trace. *)
Definition exec {A} (c : M A) (s : State) : Completion A * list Event :=
  let '(r, s') := c s in (r, drop (length (trace s)) (trace s')).

Definition outcome {A} (c : M A) (s : State) : Completion A := (exec c s).1.
Definition events {A} (c : M A) (s : State) : list Event := (exec c s).2.

(** [push s ev]: the state after [ev] was observed. *)
Definition push (s : State) (ev : Event) : State :=
  mkState (heap s) (next s) (trace s ++ [ev]).


(** The object [verifyFidOwner] leaves behind when the resolved owner is
    not the claimed fid. *)
Definition disowned (o : MergedResponse) (resolved : Z) : MergedResponse :=
  mkMerged (m_fid o) false
    (Some (mkSiweError (ownership_message (address (m_data o)) (m_fid o))
             (Some (Number_toString (m_fid o)))
             (Some (BigInt_toString resolved))))
    (m_data o).

(** [s1] occurs in [s2]. *)
Fixpoint contains (s1 s2 : string) : bool :=
  String.prefix s1 s2 ||
  match s2 with
  | EmptyString => false
  | String _ rest => contains s1 rest
  end.

(** The promise of an [async] function whose last step makes an error
    value with the constructor of [ConnectError]. *)
Definition settle {A} (c : Completion ConnectError) : Promise (Result A) :=
  match c with
  | Normal e => Resolved (Err e)
  | Thrown exn => Rejected exn
  | Waiting => Pending
  end.

Section Summary.

Variable validate : MessageInput → Result SiweMessage.
Variable parseResources : SiweMessage → Result FarcasterResourceParams.
Variable siwe_verify : SiweMessage → string → option Provider → Promise SiweResponse.

(** The value of the local [valid] of [verify]. *)
Definition validated (nonce' domain' : string) (message : MessageInput)
  : Result SiweMessage :=
  andThen (andThen (validate message) (λ m, validateNonce m nonce'))
          (λ m, validateDomain m domain').

(** The options [verify] works with. *)
Definition effective (options : option SignInOpts) : SignInOpts :=
  default (mkOpts voidVerifyFid None) options.


(** The completion and the events of a call of [verify], read off the
    answers of its collaborators. *)
Definition verify_summary (nonce' domain' : string) (message : MessageInput)
    (signature : string) (options : option SignInOpts)
  : Completion (Promise (Result VerifyResponse)) * list Event :=
  match validated nonce' domain' message with
  | Err e => (Normal (Resolved (Err e)), [])
  | Ok m =>
      let prov := provider (effective options) in
      let ev := EvSiweVerify m signature prov in
      match siwe_verify m signature prov with
      | Pending => (Normal Pending, [ev])
      | Rejected reason =>
          (Normal (settle (newConnectError unauthorized reason)), [ev])
      | Resolved r =>
          match parseResources (data r) with
          | Err e => (Normal (Resolved (Err e)), [ev])
          | Ok res =>
              let o := mkMerged (fid res) (success r) (error r) (data r) in
              let a := address (data r) in
              if negb (success r) then
                (Normal (Resolved (Err (mkConnectError unauthorized
                   (CtxMessage (error_type_or o "Failed to verify SIWE message"))))),
                 [ev; EvConsoleLog o])
              else
                match getFid (effective options) a with
                | Thrown exn => (Normal (Rejected exn), [ev; EvGetFid a])
                | Waiting => (Normal Pending, [ev; EvGetFid a])
                | Normal Pending => (Normal Pending, [ev; EvGetFid a])
                | Normal (Rejected reason) =>
                    (Normal (settle (newConnectError unavailable reason)),
                     [ev; EvGetFid a])
                | Normal (Resolved f) =>
                    match BigInt (fid res) with
                    | Normal claimed =>
                        (Normal (Resolved
                           (if bool_decide (f ≠ claimed)
                            then Err (mkConnectError unauthorized
                                   (CtxMessage (error_type_or (disowned o f)
                                                  "Failed to validate fid owner")))
                            else Ok (omit_error o))),
                         [ev; EvGetFid a; EvCompareFid f claimed])
                    | Thrown exn => (Normal (Rejected exn), [ev; EvGetFid a])
                    | Waiting => (Normal Pending, [ev; EvGetFid a])
                    end
                end
          end
      end
  end.

(** All five checks of the pipeline succeed, and [resp] is what they
    produce. *)
Definition all_checks_pass (nonce' domain' : string) (message : MessageInput)
    (signature : string) (options : option SignInOpts) (resp : VerifyResponse) : Prop :=
  ∃ m r res f,
    validate message = Ok m ∧
    nonce m = nonce' ∧
    domain m = domain' ∧
    siwe_verify m signature (provider (effective options)) = Resolved r ∧
    success r = true ∧
    parseResources (data r) = Ok res ∧
    getFid (effective options) (address (data r)) = Normal (Resolved f) ∧
    integer_value (fid res) = Some f ∧
    resp = mkVerifyResponse (fid res) true (data r).

(** One of the checks reports a failure: through an error result, a
    promise rejected with something an error value can be made of, a
    cleared success flag, or an fid that is not the integer the oracle
    resolved. *)
Inductive step_fails (nonce' domain' : string) (message : MessageInput)
    (signature : string) (options : option SignInOpts) : Prop :=
  | fails_validate e :
      validate message = Err e →
      step_fails nonce' domain' message signature options
  | fails_nonce m :
      validate message = Ok m → nonce m ≠ nonce' →
      step_fails nonce' domain' message signature options
  | fails_domain m :
      validate message = Ok m → domain m ≠ domain' →
      step_fails nonce' domain' message signature options
  | fails_signature_rejected m reason e :
      validate message = Ok m →
      siwe_verify m signature (provider (effective options)) = Rejected reason →
      newConnectError unauthorized reason = Normal e →
      step_fails nonce' domain' message signature options
  | fails_signature m r :
      validate message = Ok m →
      siwe_verify m signature (provider (effective options)) = Resolved r →
      success r = false →
      step_fails nonce' domain' message signature options
  | fails_resources m r e :
      validate message = Ok m →
      siwe_verify m signature (provider (effective options)) = Resolved r →
      parseResources (data r) = Err e →
      step_fails nonce' domain' message signature options
  | fails_oracle m r reason e :
      validate message = Ok m →
      siwe_verify m signature (provider (effective options)) = Resolved r →
      getFid (effective options) (address (data r)) = Normal (Rejected reason) →
      newConnectError unavailable reason = Normal e →
      step_fails nonce' domain' message signature options
  | fails_owner m r res f claimed :
      validate message = Ok m →
      siwe_verify m signature (provider (effective options)) = Resolved r →
      parseResources (data r) = Ok res →
      getFid (effective options) (address (data r)) = Normal (Resolved f) →
      integer_value (fid res) = Some claimed →
      f ≠ claimed →
      step_fails nonce' domain' message signature options.

End Summary.

(** ** Sample collaborators and inputs

    Stand-ins for the code outside this file, used to run the pipeline
    on concrete inputs. *)

(** Accepts a pre-built object that has the mandatory fields. *)
Definition sample_validate (message : MessageInput) : Result SiweMessage :=
  match message with
  | MsgObject (mkPartial (Some d) (Some a) st (Some u) (Some v) (Some c) (Some n)
                 ia et nb rid rs) =>
      Ok (mkSiweMessage d a st u v c n ia et nb rid rs)
  | _ => Err (mkConnectError bad_request (CtxMessage "Unable to parse message"))
  end.

(** Looks for a resource [farcaster://fid/...] in the message and
    reads it as the number [reading]; a message without one has no
    fid.  How the parser reads a numeral as a number is not modelled:
    the reading is given. *)
Definition has_fid_resource (m : SiweMessage) : bool :=
  match resources m with
  | Some entries => existsb (String.prefix "farcaster://fid/") entries
  | None => false
  end.

Definition sample_parseResources (reading : JsNumber) (m : SiweMessage)
  : Result FarcasterResourceParams :=
  if has_fid_resource m
  then Ok (mkResources reading)
  else Err (mkConnectError malformed (CtxMessage "No fid resource provided")).

(** Accepts exactly one signature; reports any other through the
    outcome, as siwe does under [suppressExceptions]. *)
Definition sample_siwe_verify (m : SiweMessage) (signature : string)
    (_ : option Provider) : Promise SiweResponse :=
  if bool_decide (signature = "0xsigned")
  then Resolved (mkSiweResponse true None m)
  else Resolved (mkSiweResponse false
                   (Some (mkSiweError "Signature does not match address of the message."
                            None None))
                   m).

(** A verifier whose provider is down. *)
(** A message with the resource [farcaster://fid/<claimed>]. *)
Definition sample_input_claiming (claimed nonce' domain' : string) : MessageInput :=
  MsgObject (mkPartial (Some domain') (Some "0xA") None
               (Some "https://example.com/login") (Some "1") (Some 10%Z)
               (Some nonce') None None None None
               (Some ["farcaster://fid/" +:+ claimed])).

Definition sample_message_claiming (claimed nonce' domain' : string) : SiweMessage :=
  mkSiweMessage domain' "0xA" None "https://example.com/login" "1" 10 nonce'
    None None None None (Some ["farcaster://fid/" +:+ claimed]).

Definition sample_input (nonce' domain' : string) : MessageInput :=
  MsgObject (mkPartial (Some domain') (Some "0xA") None
               (Some "https://example.com/login") (Some "1") (Some 10%Z)
               (Some nonce') None None None None
               (Some ["farcaster://fid/42"])).

Definition sample_message (nonce' domain' : string) : SiweMessage :=
  mkSiweMessage domain' "0xA" None "https://example.com/login" "1" 10 nonce'
    None None None None (Some ["farcaster://fid/42"]).

(** Numbers beyond the integers that render in decimal: 10^21, and the
    infinity that a numeral of four hundred digits is read as. *)
Definition sextillion : JsNumber := mkNumber (Some (10 ^ 21)%Z) "1e+21".
Definition infinity : JsNumber := mkNumber None "Infinity".
Definition four_hundred_nines : string := String.concat "" (replicate 400 "9").

(** Oracles: one that resolves, one that rejects with an [Error], one
    that rejects without a reason ([Promise.reject()]), one that throws
    before it returns a promise. *)
Definition resolving_oracle (owner : Z) : FidVerifier := λ _, Normal (Resolved owner).
Definition rejecting_oracle : FidVerifier :=
  λ _, Normal (Rejected (ErrorObject (mkError "rpc timeout"))).
Definition unreasoned_oracle : FidVerifier := λ _, Normal (Rejected Nullish).
Definition throwing_oracle : FidVerifier :=
  λ _, Thrown (ErrorObject (mkError "invalid address")).

(** The pipeline over the sample collaborators, the parser reading the
    fid resource as [reading]. *)
Definition sample_verify (reading : JsNumber) :=
  verify sample_validate (sample_parseResources reading) sample_siwe_verify.

Definition with_oracle (g : FidVerifier) : option SignInOpts := Some (mkOpts g None).

(** What siwe answers for the sample message under a forged signature. *)
Definition forged_response (nonce' domain' : string) : SiweResponse :=
  mkSiweResponse false
    (Some (mkSiweError "Signature does not match address of the message." None None))
    (sample_message nonce' domain').

(** ** Observations on traces and stores *)

Definition is_oracle_call (ev : Event) : bool :=
  match ev with EvGetFid _ => true | _ => false end.

Definition is_siwe_call (ev : Event) : bool :=
  match ev with EvSiweVerify _ _ _ => true | _ => false end.

(** How often the oracle, respectively siwe's [verify], was called. *)
Definition oracle_calls (evs : list Event) : nat :=
  length (List.filter is_oracle_call evs).
Definition siwe_calls (evs : list Event) : nat :=
  length (List.filter is_siwe_call evs).

(** The store a computation leaves behind. *)
Definition final {A} (c : M A) (s : State) : State := (c s).2.

(** Every object of the store was allocated: its address is below
    [next]. *)
Definition store_wf (s : State) : Prop :=
  ∀ l, is_Some (heap s !! l) → l < next s.

(** siwe's [verify] answers with the message it was called on: the
    [data] of its response is [this]. *)
Definition echoes_message
    (siwe_verify : SiweMessage → string → option Provider → Promise SiweResponse) : Prop :=
  ∀ m signature prov r, siwe_verify m signature prov = Resolved r → data r = m.

(** A registry read that fails before it returns a promise. *)
(** A registry read that fails before it returns a promise. *)
Definition reverting_read : Hex → Completion (Promise Z) :=
  λ _, Thrown (ErrorObject (mkError "execution reverted")).

(** A store that holds one merged response, for fid 42. *)
Definition sample_response : MergedResponse :=
  mkMerged (integer 42) true None (sample_message "n1" "example.com").
Definition sample_store : State := mkState {[ 0 := sample_response ]} 1 [].

(** * Proofs *)

(** ** Step lemmas: what each function of the pipeline does to the state *)

Ltac run_step :=
  unfold mbind, M_bind, mret, M_ret, async, await, adopt, call, emit, alloc,
    deref, assign, push in *; simpl in *.

Lemma drop_trace {A} (t evs : list A) : drop (length t) (t ++ evs) = evs.
Proof. apply drop_app_length. Qed.

Section Steps.

Variable validate : MessageInput → Result SiweMessage.
Variable parseResources : SiweMessage → Result FarcasterResourceParams.
Variable siwe_verify : SiweMessage → string → option Provider → Promise SiweResponse.

Lemma verifySiweMessage_run m sig prov s :
  verifySiweMessage siwe_verify m sig prov s =
  (Normal (fromPromise (siwe_verify m sig prov)
             (λ e, newConnectError unauthorized e)),
   push s (EvSiweVerify m sig prov)).
Proof.
  unfold verifySiweMessage. run_step.
  destruct (siwe_verify m sig prov) as [r|reason|]; try reflexivity.
  cbn [fromPromise]. destruct (newConnectError unauthorized reason); reflexivity.
Qed.

Lemma mergeResources_run r s :
  mergeResources parseResources r s =
  match parseResources (data r) with
  | Err e => (Normal (Err e), s)
  | Ok res =>
      (Normal (Ok (next s)),
       mkState (<[next s := mkMerged (fid res) (success r) (error r) (data r)]> (heap s))
               (S (next s)) (trace s))
  end.
Proof.
  unfold mergeResources. destruct (parseResources (data r)); reflexivity.
Qed.

Lemma checkOwner_run l o f s :
  heap s !! l = Some o →
  checkOwner l (address (m_data o)) f s =
  match BigInt (m_fid o) with
  | Normal claimed =>
      (Normal (Ok l),
       if bool_decide (f ≠ claimed)
       then mkState (<[l := disowned o f]> (heap s)) (next s)
                    (trace s ++ [EvCompareFid f claimed])
       else push s (EvCompareFid f claimed))
  | Thrown exn => (Thrown exn, s)
  | Waiting => (Waiting, s)
  end.
Proof.
  intros Hl. unfold checkOwner. run_step. rewrite Hl. simpl.
  destruct (BigInt (m_fid o)) as [claimed|exn|]; try reflexivity.
  case_bool_decide; simpl; [|reflexivity].
  rewrite lookup_insert_eq. simpl. rewrite insert_insert_eq. reflexivity.
Qed.

Lemma verifyFidOwner_run l o (g : FidVerifier) s :
  heap s !! l = Some o →
  verifyFidOwner l g s =
  let a := address (m_data o) in
  match g a with
  | Thrown exn => (Normal (Rejected exn), push s (EvGetFid a))
  | Waiting => (Normal Pending, push s (EvGetFid a))
  | Normal Pending => (Normal Pending, push s (EvGetFid a))
  | Normal (Rejected reason) =>
      (Normal (settle (newConnectError unavailable reason)), push s (EvGetFid a))
  | Normal (Resolved f) =>
      match BigInt (m_fid o) with
      | Normal claimed =>
          (Normal (Resolved (Ok l)),
           if bool_decide (f ≠ claimed)
           then mkState (<[l := disowned o f]> (heap s)) (next s)
                  (trace s ++ [EvGetFid a; EvCompareFid f claimed])
           else mkState (heap s) (next s)
                  (trace s ++ [EvGetFid a; EvCompareFid f claimed]))
      | Thrown exn => (Normal (Rejected exn), push s (EvGetFid a))
      | Waiting => (Normal Pending, push s (EvGetFid a))
      end
  end.
Proof.
  intros Hl. cbn zeta. unfold verifyFidOwner.
  unfold mbind at 1, M_bind at 1, async, deref. rewrite Hl.
  unfold mbind at 1, M_bind at 1, emit. cbn [heap next trace].
  unfold mbind at 1, M_bind at 1, call.
  destruct (g (address (m_data o))) as [[f|reason|]|exn|]; cbn [fromPromise];
    try reflexivity.
  - unfold mbind at 1, M_bind at 1, adopt, await, mret, M_ret.
    rewrite (checkOwner_run l o f); [|exact Hl].
    destruct (BigInt (m_fid o)) as [claimed|exn|]; try reflexivity.
    unfold push. cbn [heap next trace].
    case_bool_decide; rewrite <- app_assoc; reflexivity.
  - cbn beta. destruct (newConnectError unavailable reason); reflexivity.
Qed.

#[local] Abbreviation verify' := (verify validate parseResources siwe_verify).
#[local] Abbreviation verify_summary' :=
  (verify_summary validate parseResources siwe_verify).

(** The stateful pipeline and its summary agree, whatever the store
    it starts in. *)
Lemma verify_exec nonce' domain' message signature options s :
  exec (verify' nonce' domain' message signature options) s =
  verify_summary' nonce' domain' message signature options.
Proof.
  unfold exec, verify_summary, verify, validated, effective.
  unfold async at 1.
  destruct (andThen _ _) as [m|e]; simpl.
  2:{ unfold mret, M_ret. by rewrite drop_all. }
  unfold mbind at 1, M_bind at 1. rewrite verifySiweMessage_run.
  destruct (siwe_verify m signature _) as [r|reason|]; cbn [fromPromise].
  2:{ destruct (newConnectError unauthorized reason);
        simpl; unfold push; simpl; by rewrite drop_trace. }
  2:{ simpl. unfold push. simpl. by rewrite drop_trace. }
  unfold mbind at 1, M_bind at 1, await at 1, mret at 1, M_ret at 1.
  unfold mbind at 1, M_bind at 1. rewrite mergeResources_run.
  destruct (parseResources (data r)) as [res|e].
  2:{ simpl. unfold M_ret. simpl. by rewrite drop_trace. }
  cbn [push heap next trace].
  set (o := mkMerged (fid res) (success r) (error r) (data r)).
  set (s1 := mkState _ _ _).
  assert (Hl : heap s1 !! next s = Some o) by apply lookup_insert_eq.
  unfold mbind at 1, M_bind at 1, deref at 1. rewrite Hl.
  destruct (success r) eqn:Hs; cbn [m_success o negb].
  - unfold mbind at 1, M_bind at 1.
    rewrite (verifyFidOwner_run (next s) o _ s1 Hl). cbn zeta.
    change (m_data o) with (data r). change (m_fid o) with (fid res).
    destruct (getFid _ (address (data r))) as [[f|reason|]|exn|].
    + destruct (BigInt (fid res)) as [claimed|exn|].
      * case_bool_decide; run_step; repeat (rewrite lookup_insert_eq; simpl);
          by rewrite <- app_assoc, drop_trace.
      * run_step. by rewrite <- app_assoc, drop_trace.
      * run_step. by rewrite <- app_assoc, drop_trace.
    + destruct (newConnectError unavailable reason);
        run_step; by rewrite <- app_assoc, drop_trace.
    + run_step. by rewrite <- app_assoc, drop_trace.
    + run_step. by rewrite <- app_assoc, drop_trace.
    + run_step. by rewrite <- app_assoc, drop_trace.
  - run_step. by rewrite <- app_assoc, drop_trace.
Qed.

Lemma verify_outcome nonce' domain' message signature options s :
  outcome (verify' nonce' domain' message signature options) s =
  (verify_summary' nonce' domain' message signature options).1.
Proof. unfold outcome. by rewrite verify_exec. Qed.

Lemma verify_events nonce' domain' message signature options s :
  events (verify' nonce' domain' message signature options) s =
  (verify_summary' nonce' domain' message signature options).2.
Proof. unfold events. by rewrite verify_exec. Qed.

(** The three validations, taken together. *)
Lemma validated_Ok nonce' domain' message m :
  validated validate nonce' domain' message = Ok m ↔
  validate message = Ok m ∧ nonce m = nonce' ∧ domain m = domain'.
Proof.
  unfold validated, andThen, validateNonce, validateDomain.
  destruct (validate message) as [m0|e]; [|split; [done|by intros [? _]]].
  repeat case_bool_decide; split; try done.
  - intros [[= ->] [? ?]]. done.
  - intros [[= ->] [? ?]]. done.
  - intros [= ->]. done.
  - intros [[= ->] _]. done.
Qed.

End Steps.

Lemma append_assoc (x y z : string) : (x +:+ y) +:+ z = x +:+ y +:+ z.
Proof.
  induction x as [|c x IH]; [done|].
  change (String c ((x +:+ y) +:+ z) = String c (x +:+ y +:+ z)).
  by rewrite IH.
Qed.

(** A string occurs in whatever it is embedded in. *)
Lemma prefix_app (x q : string) : String.prefix x (x +:+ q) = true.
Proof.
  induction x as [|c x IH]; simpl; [by destruct q|].
  destruct (Ascii.ascii_dec c c); [exact IH|done].
Qed.

Lemma contains_app (p x q : string) : contains x (p +:+ x +:+ q) = true.
Proof.
  induction p as [|c p IH]; simpl.
  - pose proof (prefix_app x q) as H.
    destruct (x +:+ q); simpl in *; rewrite H; done.
  - rewrite IH. apply orb_true_r.
Qed.

(** ** Success and failure of the pipeline *)

(** Case analysis over the answers of the collaborators, in the order
    in which [verify] consults them. *)
Ltac by_cases_on_summary :=
  repeat match goal with
    | |- context [match ?x with _ => _ end] =>
        lazymatch x with
        | bool_decide _ => case_bool_decide
        | negb _ => fail
        | _ => destruct x eqn:?
        end
    | |- context [if negb ?b then _ else _] => destruct b eqn:?; cbn [negb]
    | |- context [settle (newConnectError ?k ?v)] =>
        destruct (newConnectError k v) eqn:?; cbn [settle]
    end; cbn [fst snd] in *; simplify_eq.

Section Invariants.

Variable validate : MessageInput → Result SiweMessage.
Variable parseResources : SiweMessage → Result FarcasterResourceParams.
Variable siwe_verify : SiweMessage → string → option Provider → Promise SiweResponse.

#[local] Abbreviation verify' := (verify validate parseResources siwe_verify).

(** X16. [verify] yields a [VerifyResponse] only if validation of the
    nonce and of the domain, the signature check (success flag set),
    the parsing of the resources and the ownership check have all
    succeeded; and whenever one of them reports a failure (an error
    result, a promise rejected with an [Error] or a string, a cleared
    success flag, an fid that is an integer other than the resolved
    one), [verify] yields an error value, never a response. *)
Theorem verify_ok_only_if_all_checks_pass
    nonce' domain' message signature options s :
  (∀ resp,
     outcome (verify' nonce' domain' message signature options) s
       = Normal (Resolved (Ok resp)) →
     all_checks_pass validate parseResources siwe_verify
       nonce' domain' message signature options resp) ∧
  (step_fails validate parseResources siwe_verify
     nonce' domain' message signature options →
   ∃ e, outcome (verify' nonce' domain' message signature options) s
          = Normal (Resolved (Err e))).
Proof.
  rewrite verify_outcome. unfold verify_summary. split.
  - intros resp.
    destruct (validated _ _ _ _) as [m|e] eqn:Hv; [|done].
    apply validated_Ok in Hv as (Hv & Hn & Hd).
    cbn zeta.
    destruct (siwe_verify m signature _) as [r|reason|] eqn:Hsig; [| |done].
    2:{ cbn. by destruct (newConnectError unauthorized reason). }
    destruct (parseResources (data r)) as [res|?] eqn:Hres; [|done].
    destruct (success r) eqn:Hok; cbn [negb]; [|done].
    destruct (getFid _ _) as [[f|reason|]|?|] eqn:Hfid; try done.
    2:{ cbn. by destruct (newConnectError unavailable reason). }
    unfold BigInt. destruct (integer_value (fid res)) as [claimed|] eqn:Hint;
      [|done].
    case_bool_decide as Hown; intros [= <-].
    exists m, r, res, f. unfold omit_error. cbn [m_fid m_success m_data].
    destruct (decide (f = claimed)) as [->|]; [|done].
    rewrite Hok. done.
  - intros Hfail.
    destruct (validated _ _ _ _) as [m'|e'] eqn:Hv; [|simpl; eauto].
    apply validated_Ok in Hv as (Hv & Hn & Hd). cbn zeta.
    destruct Hfail as [e Ha|m Ha Hb|m Ha Hb|m reason e Ha Hb Hc|m r Ha Hb Hc
                       |m r e Ha Hb Hc|m r reason e Ha Hb Hc Hd'
                       |m r res f claimed Ha Hb Hc Hd' He Hf];
      try congruence; assert (m = m') as -> by congruence.
    + rewrite Hb. cbn. rewrite Hc. eauto.
    + rewrite Hb. destruct (parseResources (data r)); [|cbn; eauto].
      rewrite Hc. cbn. eauto.
    + rewrite Hb, Hc. cbn. eauto.
    + rewrite Hb. destruct (parseResources (data r)); [|cbn; eauto].
      destruct (success r); cbn [negb]; [|cbn; eauto].
      rewrite Hc. cbn. rewrite Hd'. eauto.
    + rewrite Hb, Hc.
      destruct (success r); cbn [negb]; [|cbn; eauto].
      rewrite Hd'. unfold BigInt. rewrite He. cbn.
      rewrite bool_decide_eq_true_2 by done. eauto.
Qed.

(** C4. A correctly signed message whose nonce and domain are the
    expected ones, and for whose signer the oracle resolves exactly
    the claimed fid, yields a success result: the data of the
    verified outcome merged with the parsed resource claims, without
    the [error] field. *)
Theorem verify_roundtrip
    nonce' domain' message signature options s m r res f :
  validate message = Ok m →
  nonce m = nonce' →
  domain m = domain' →
  siwe_verify m signature (provider (effective options)) = Resolved r →
  success r = true →
  parseResources (data r) = Ok res →
  integer_value (fid res) = Some f →
  getFid (effective options) (address (data r)) = Normal (Resolved f) →
  outcome (verify' nonce' domain' message signature options) s
    = Normal (Resolved (Ok (omit_error
        (mkMerged (fid res) (success r) (error r) (data r))))) ∧
  omit_error (mkMerged (fid res) (success r) (error r) (data r))
    = mkVerifyResponse (fid res) true (data r).
Proof.
  intros Hv Hn Hd Hsig Hok Hres Hint Hfid.
  assert (validated validate nonce' domain' message = Ok m) as Hvalid
    by (by apply validated_Ok).
  rewrite verify_outcome. unfold verify_summary.
  rewrite Hvalid. cbn zeta. rewrite Hsig, Hres, Hok. cbn [negb].
  rewrite Hfid. unfold BigInt. rewrite Hint. cbn [fst].
  unfold omit_error. cbn.
  by rewrite bool_decide_eq_false_2 by (intros Hne; by apply Hne).
Qed.

(** C10. The response of a successful verification has every field
    of the merged outcome but [error]: the claimed fid, the success
    flag, which is set, and the whole SIWE data record. *)
Theorem response_keeps_all_but_error
    nonce' domain' message signature options s resp :
  outcome (verify' nonce' domain' message signature options) s
    = Normal (Resolved (Ok resp)) →
  ∃ m r res,
    validated validate nonce' domain' message = Ok m ∧
    siwe_verify m signature (provider (effective options)) = Resolved r ∧
    parseResources (data r) = Ok res ∧
    let merged := mkMerged (fid res) (success r) (error r) (data r) in
    resp = omit_error merged ∧
    r_fid resp = m_fid merged ∧
    r_success resp = m_success merged ∧
    r_success resp = true ∧
    r_data resp = m_data merged ∧
    r_data resp = data r.
Proof.
  rewrite verify_outcome. unfold verify_summary.
  destruct (validated _ _ _ _) as [m|e] eqn:Hv; [|done].
  cbn zeta.
  destruct (siwe_verify m signature _) as [r|reason|] eqn:Hsig; [| |done].
  2:{ cbn. by destruct (newConnectError unauthorized reason). }
  destruct (parseResources (data r)) as [res|?] eqn:Hres; [|done].
  destruct (success r) eqn:Hok; cbn [negb]; [|done].
  destruct (getFid _ _) as [[f|reason|]|?|] eqn:Hfid; try done.
  2:{ cbn. by destruct (newConnectError unavailable reason). }
  destruct (BigInt (fid res)) as [claimed|?|]; try done.
  case_bool_decide as Hown; intros [= <-].
  exists m, r, res. rewrite Hok. done.
Qed.

(** C8. The ownership check is equality of integers of unbounded
    size: once the signature and the resources are accepted,
    [verify] succeeds exactly when the resolved fid is the integer
    the claimed fid is.  Zero is an fid like any other. *)
Theorem fid_comparison_exact
    nonce' domain' message signature options s m r res claimed f :
  validate message = Ok m →
  nonce m = nonce' →
  domain m = domain' →
  siwe_verify m signature (provider (effective options)) = Resolved r →
  success r = true →
  parseResources (data r) = Ok res →
  integer_value (fid res) = Some claimed →
  getFid (effective options) (address (data r)) = Normal (Resolved f) →
  ((∃ resp, outcome (verify' nonce' domain' message signature options) s
              = Normal (Resolved (Ok resp)))
   ↔ f = claimed) ∧
  (fid res = integer 0 → f = 0%Z →
   outcome (verify' nonce' domain' message signature options) s
     = Normal (Resolved (Ok (mkVerifyResponse (integer 0) true (data r))))) ∧
  (∀ k : Z, k ≠ 0%Z → f = (claimed + k)%Z →
   ∃ e, outcome (verify' nonce' domain' message signature options) s
          = Normal (Resolved (Err e))).
Proof.
  intros Hv Hn Hd Hsig Hok Hres Hint Hfid.
  assert (validated validate nonce' domain' message = Ok m) as Hvalid
    by (by apply validated_Ok).
  rewrite verify_outcome. unfold verify_summary.
  rewrite Hvalid. cbn zeta. rewrite Hsig, Hres, Hok. cbn [negb].
  rewrite Hfid. unfold BigInt. rewrite Hint. cbn [fst].
  unfold omit_error. cbn.
  split; [|split].
  - case_bool_decide as Hown.
    + split; [by intros [? [=]]|done].
    + split; [intros _; by destruct (decide (f = claimed))|eauto].
  - intros H0 ->. rewrite H0 in Hint |- *. cbn in Hint. simplify_eq. done.
  - intros k Hk ->. rewrite bool_decide_eq_true_2 by lia. eauto.
Qed.

(** X17. When the oracle is called and its promise is rejected with an
    [Error], [verify] yields an error of kind [unavailable] that wraps
    it, and the resolved and the claimed fid are never compared. *)
Theorem oracle_rejection_is_unavailable
    nonce' domain' message signature options s a e :
  EvGetFid a ∈ events (verify' nonce' domain' message signature options) s →
  getFid (effective options) a = Normal (Rejected (ErrorObject e)) →
  outcome (verify' nonce' domain' message signature options) s
    = Normal (Resolved (Err (mkConnectError unavailable (CtxCause e)))) ∧
  ∀ f c, EvCompareFid f c ∉
           events (verify' nonce' domain' message signature options) s.
Proof.
  rewrite verify_outcome, verify_events. unfold verify_summary.
  intros Hcall Hrej. revert Hcall.
  by_cases_on_summary; rewrite ?elem_of_cons, ?elem_of_nil;
    intros Hcall; destruct_or?; simplify_eq; try congruence.
  all: assert (reason = ErrorObject e) as -> by congruence; simplify_eq/=.
  split; [done|]. intros f c. rewrite !elem_of_cons, elem_of_nil.
  intros ?; destruct_or?; simplify_eq.
Qed.

(** C9. Called without options, [verify] uses an oracle that rejects
    every address with a "Not implemented" error: the call never
    yields a response, and where the pipeline gets as far as the
    ownership check the result is an [unavailable] error with this
    cause. *)
Theorem default_oracle_always_rejects nonce' domain' message signature s :
  (∀ custody,
     voidVerifyFid custody
       = Normal (Rejected (ErrorObject
           (mkError "Not implemented: Must provide an fid verifier")))) ∧
  getFid (effective None) = voidVerifyFid ∧
  (∀ resp, outcome (verify' nonce' domain' message signature None) s
             ≠ Normal (Resolved (Ok resp))) ∧
  (∀ a, EvGetFid a ∈ events (verify' nonce' domain' message signature None) s →
     outcome (verify' nonce' domain' message signature None) s
       = Normal (Resolved (Err (mkConnectError unavailable
           (CtxCause (mkError "Not implemented: Must provide an fid verifier")))))).
Proof.
  split; [done|]. split; [done|].
  rewrite verify_outcome, verify_events. unfold verify_summary.
  change (effective None) with (mkOpts voidVerifyFid None).
  cbn [getFid provider]. unfold voidVerifyFid. cbn [settle newConnectError].
  split.
  - intros resp. by_cases_on_summary; done.
  - intros a. by_cases_on_summary; rewrite ?elem_of_cons, ?elem_of_nil;
      intros Hcall; destruct_or?; simplify_eq; done.
Qed.

End Invariants.

(** ** The error paths *)

Section ErrorPaths.

Variable validate : MessageInput → Result SiweMessage.
Variable parseResources : SiweMessage → Result FarcasterResourceParams.
Variable siwe_verify : SiweMessage → string → option Provider → Promise SiweResponse.

#[local] Abbreviation verify' := (verify validate parseResources siwe_verify).

(** The store after a signature is turned down: the merged object is
    in it. *)
Lemma verify_rejected_signature_store
    nonce' domain' message signature options s m r res :
  validated validate nonce' domain' message = Ok m →
  siwe_verify m signature (provider (effective options)) = Resolved r →
  parseResources (data r) = Ok res →
  success r = false →
  heap (final (verify' nonce' domain' message signature options) s)
    = <[next s := mkMerged (fid res) false (error r) (data r)]> (heap s).
Proof.
  unfold validated, effective. intros Hvalid Hsig Hres Hok.
  unfold final, verify. unfold async at 1. rewrite Hvalid.
  unfold mbind at 1, M_bind at 1. rewrite verifySiweMessage_run, Hsig.
  cbn [fromPromise].
  unfold mbind at 1, M_bind at 1, await at 1, mret at 1, M_ret at 1.
  unfold mbind at 1, M_bind at 1. rewrite mergeResources_run, Hres, Hok.
  cbn [push heap next trace].
  unfold mbind at 1, M_bind at 1, deref at 1. cbn [heap].
  rewrite lookup_insert_eq. cbn [m_success negb]. run_step. done.
Qed.

(** C2, as the code has it.  The resource claims are merged into the
    outcome of the signature check before its success flag is looked
    at.  So an outcome whose flag is cleared is reported as
    [unauthorized], with the type of the embedded error as message,
    once the claims are merged: the object that is logged, and that is
    left in the store, is the merged one, with the claimed fid.  And a
    failure to parse the resources is reported as the parser's error
    before the flag is looked at. *)
Theorem resources_merged_before_success_is_read
    nonce' domain' message signature options s m r :
  validate message = Ok m →
  nonce m = nonce' →
  domain m = domain' →
  siwe_verify m signature (provider (effective options)) = Resolved r →
  (∀ e, parseResources (data r) = Err e →
     outcome (verify' nonce' domain' message signature options) s
       = Normal (Resolved (Err e))) ∧
  (∀ res, parseResources (data r) = Ok res → success r = false →
     outcome (verify' nonce' domain' message signature options) s
       = Normal (Resolved (Err (mkConnectError unauthorized
           (CtxMessage match error r with
                       | Some detail => type detail
                       | None => "Failed to verify SIWE message"
                       end)))) ∧
     events (verify' nonce' domain' message signature options) s
       = [EvSiweVerify m signature (provider (effective options));
          EvConsoleLog (mkMerged (fid res) false (error r) (data r))] ∧
     heap (final (verify' nonce' domain' message signature options) s) !! next s
       = Some (mkMerged (fid res) false (error r) (data r)) ∧
     ∀ a, EvGetFid a ∉ events (verify' nonce' domain' message signature options) s).
Proof.
  intros Hv Hn Hd Hsig.
  assert (validated validate nonce' domain' message = Ok m) as Hvalid
    by (by apply validated_Ok).
  split.
  - rewrite verify_outcome. unfold verify_summary.
    rewrite Hvalid. cbn zeta. rewrite Hsig. intros e ->. done.
  - intros res Hres Hok.
    rewrite (verify_rejected_signature_store _ _ _ _ _ _ m r res) by done.
    rewrite lookup_insert_eq.
    rewrite verify_outcome, verify_events. unfold verify_summary.
    rewrite Hvalid. cbn zeta. rewrite Hsig, Hres, Hok. cbn.
    split_and!; try done.
    intros a. rewrite !elem_of_cons, elem_of_nil.
    intros ?; destruct_or?; simplify_eq.
Qed.

(** C3, at the inputs on which the code fails it.  Three exceptions
    leave [verify] as a rejection of the promise it returns, once the
    signature is accepted and the resources are parsed: the one an
    oracle throws before it returns a promise, the [TypeError] of
    making an error value of a rejection that has no reason, and the
    [RangeError] of converting a claimed fid that is no integer. *)
Theorem verify_lets_exceptions_escape
    nonce' domain' message signature options s m r res :
  validate message = Ok m →
  nonce m = nonce' →
  domain m = domain' →
  siwe_verify m signature (provider (effective options)) = Resolved r →
  success r = true →
  parseResources (data r) = Ok res →
  (∀ exn,
     getFid (effective options) (address (data r)) = Thrown exn →
     outcome (verify' nonce' domain' message signature options) s
       = Normal (Rejected exn)) ∧
  (getFid (effective options) (address (data r)) = Normal (Rejected Nullish) →
   outcome (verify' nonce' domain' message signature options) s
     = Normal (Rejected (ErrorObject nullish_context))) ∧
  (∀ f,
     getFid (effective options) (address (data r)) = Normal (Resolved f) →
     integer_value (fid res) = None →
     outcome (verify' nonce' domain' message signature options) s
       = Normal (Rejected (ErrorObject (not_an_integer (fid res))))).
Proof.
  intros Hv Hn Hd Hsig Hok Hres.
  assert (validated validate nonce' domain' message = Ok m) as Hvalid
    by (by apply validated_Ok).
  rewrite verify_outcome. unfold verify_summary.
  rewrite Hvalid. cbn zeta. rewrite Hsig, Hres, Hok. cbn [negb].
  split_and!.
  - intros exn ->. done.
  - intros ->. done.
  - intros f -> Hint. unfold BigInt. rewrite Hint. done.
Qed.

(** C6, at the input on which the code fails it.  When the oracle is
    called and its promise is rejected without a reason, no
    [unavailable] error comes out of [verify]: making it throws a
    [TypeError], with which the promise of [verify] is rejected.  The
    two fids are not compared. *)
Theorem oracle_rejection_without_reason_escapes
    nonce' domain' message signature options s a :
  EvGetFid a ∈ events (verify' nonce' domain' message signature options) s →
  getFid (effective options) a = Normal (Rejected Nullish) →
  outcome (verify' nonce' domain' message signature options) s
    = Normal (Rejected (ErrorObject nullish_context)) ∧
  ∀ f c, EvCompareFid f c ∉
           events (verify' nonce' domain' message signature options) s.
Proof.
  rewrite verify_outcome, verify_events. unfold verify_summary.
  intros Hcall Hrej. revert Hcall.
  by_cases_on_summary; rewrite ?elem_of_cons, ?elem_of_nil;
    intros Hcall; destruct_or?; simplify_eq; try congruence.
  all: assert (reason = Nullish) as -> by congruence; simplify_eq/=.
  split; [done|]. intros f c. rewrite !elem_of_cons, elem_of_nil.
  intros ?; destruct_or?; simplify_eq.
Qed.

(** C5, as the code has it.  When the claimed fid is an integer and the
    oracle resolves another, [verifyFidOwner] still returns an [ok]:
    it clears the success flag of the response object and stores an
    ownership error in it, whose [expected] and [received] fields hold
    the claimed fid as the number renders and the resolved fid in
    decimal.  [verify] then returns an [unauthorized] error whose
    message is the type of that error: it names the signer and the
    claimed fid, as the number renders. *)
Theorem ownership_mismatch_is_unauthorized :
  (∀ l o (g : FidVerifier) s claimed f,
     heap s !! l = Some o →
     g (address (m_data o)) = Normal (Resolved f) →
     integer_value (m_fid o) = Some claimed →
     f ≠ claimed →
     ∃ s',
       verifyFidOwner l g s = (Normal (Resolved (Ok l)), s') ∧
       heap s' !! l = Some (disowned o f) ∧
       m_success (disowned o f) = false ∧
       m_error (disowned o f)
         = Some (mkSiweError (ownership_message (address (m_data o)) (m_fid o))
                   (Some (Number_toString (m_fid o))) (Some (BigInt_toString f)))) ∧
  (∀ nonce' domain' message signature options s m r res claimed f,
     validate message = Ok m →
     nonce m = nonce' →
     domain m = domain' →
     siwe_verify m signature (provider (effective options)) = Resolved r →
     success r = true →
     parseResources (data r) = Ok res →
     getFid (effective options) (address (data r)) = Normal (Resolved f) →
     integer_value (fid res) = Some claimed →
     f ≠ claimed →
     outcome (verify' nonce' domain' message signature options) s
       = Normal (Resolved (Err (mkConnectError unauthorized
           (CtxMessage ("Invalid resource: signer " +:+ address (data r) +:+
                        " does not own fid " +:+ rendering (fid res) +:+ "."))))) ∧
     contains (address (data r))
       (ownership_message (address (data r)) (fid res)) = true ∧
     contains (Number_toString (fid res))
       (ownership_message (address (data r)) (fid res)) = true).
Proof.
  split.
  - intros l o g s claimed f Hl Hg Hint Hne.
    rewrite (verifyFidOwner_run l o g s Hl). cbn zeta. rewrite Hg.
    unfold BigInt. rewrite Hint.
    rewrite bool_decide_eq_true_2 by done.
    eexists. split; [done|]. cbn [heap]. by rewrite lookup_insert_eq.
  - intros nonce' domain' message signature options s m r res claimed f
      Hv Hn Hd Hsig Hok Hres Hfid Hint Hne.
    assert (validated validate nonce' domain' message = Ok m) as Hvalid
      by (by apply validated_Ok).
    rewrite verify_outcome. unfold verify_summary.
    rewrite Hvalid. cbn zeta. rewrite Hsig, Hres, Hok. cbn [negb].
    rewrite Hfid. unfold BigInt. rewrite Hint. cbn [fst].
    rewrite bool_decide_eq_true_2 by done.
    split; [done|]. unfold ownership_message. split.
    + apply contains_app.
    + set (p := "Invalid resource: signer ").
      set (q := " does not own fid ").
      replace (p +:+ address (data r) +:+ q +:+ Number_toString (fid res) +:+ ".")
        with ((p +:+ address (data r) +:+ q) +:+ Number_toString (fid res) +:+ ".").
      * apply contains_app.
      * by rewrite !append_assoc.
Qed.

(** C7, as the code has it.  For a message that passes [validate]:
    if its nonce is not the expected one, [verify] returns
    [unauthorized] "Invalid nonce"; if its nonce is the expected one
    and its domain is not, [unauthorized] "Invalid domain".  Strings
    are compared as they are.  Neither the signature nor the oracle
    is consulted, so what they would have answered does not matter. *)
Theorem nonce_then_domain_mismatch
    nonce' domain' message signature options s m :
  validate message = Ok m →
  (nonce m ≠ nonce' →
     outcome (verify' nonce' domain' message signature options) s
       = Normal (Resolved (Err (mkConnectError unauthorized
           (CtxMessage "Invalid nonce")))) ∧
     events (verify' nonce' domain' message signature options) s = []) ∧
  (nonce m = nonce' → domain m ≠ domain' →
     outcome (verify' nonce' domain' message signature options) s
       = Normal (Resolved (Err (mkConnectError unauthorized
           (CtxMessage "Invalid domain")))) ∧
     events (verify' nonce' domain' message signature options) s = []) ∧
  (nonce m ≠ nonce' ∨ domain m ≠ domain' →
     ∀ a, EvGetFid a ∉ events (verify' nonce' domain' message signature options) s).
Proof.
  intros Hv. rewrite verify_outcome, verify_events.
  unfold verify_summary, validated. rewrite Hv.
  unfold andThen, validateNonce, validateDomain.
  split; [|split].
  - intros Hne. by rewrite bool_decide_eq_true_2.
  - intros He Hne. rewrite bool_decide_eq_false_2 by (intros H; by apply H).
    by rewrite bool_decide_eq_true_2.
  - intros Hne a. repeat case_bool_decide; cbn; try apply not_elem_of_nil.
    by destruct Hne.
Qed.

End ErrorPaths.

(** The oracle of [viem.ts] never throws: being [async], it turns a
    throwing registry read into a rejected promise. *)
Lemma viem_getFid_never_throws readContract custody exn :
  viem_getFid readContract custody ≠ Thrown exn.
Proof. unfold viem_getFid. by destruct (readContract custody). Qed.

(** ** The pipeline on concrete inputs *)

(** X16 at work: the scenario of the specification (fid 42 claimed and
    resolved) passes all checks, and a stale nonce is an error value. *)
Lemma verify_ok_only_if_all_checks_pass_witness :
  all_checks_pass sample_validate (sample_parseResources (integer 42)) sample_siwe_verify
    "n1" "example.com" (sample_input "n1" "example.com") "0xsigned"
    (with_oracle (resolving_oracle 42))
    (mkVerifyResponse (integer 42) true (sample_message "n1" "example.com")) ∧
  ∃ e, outcome (sample_verify (integer 42) "n1" "example.com"
                  (sample_input "n2" "example.com") "0xsigned"
                  (with_oracle (resolving_oracle 42))) initial
         = Normal (Resolved (Err e)).
Proof.
  split.
  - apply (proj1 (verify_ok_only_if_all_checks_pass
                    sample_validate (sample_parseResources (integer 42)) sample_siwe_verify
                    "n1" "example.com" (sample_input "n1" "example.com") "0xsigned"
                    (with_oracle (resolving_oracle 42)) initial)).
    vm_compute. reflexivity.
  - apply (proj2 (verify_ok_only_if_all_checks_pass
                    sample_validate (sample_parseResources (integer 42)) sample_siwe_verify
                    "n1" "example.com" (sample_input "n2" "example.com") "0xsigned"
                    (with_oracle (resolving_oracle 42)) initial)).
    apply (fails_nonce _ _ _ _ _ _ _ _ (sample_message "n2" "example.com"));
      [reflexivity | vm_compute; discriminate].
Defined.

(** C1, at inputs on which the code fails it.  A correctly signed
    message whose fid resource is a numeral of four hundred digits,
    read as [Infinity], with an oracle that resolves 42: the signer
    does not own what is claimed, and no error value comes out; the
    promise of [verify] is rejected with the [RangeError] of [BigInt].
    The same for the message that claims fid 42 and an oracle that
    rejects without a reason ([Promise.reject()]): the promise of
    [verify] is rejected with a [TypeError]. *)
Lemma failed_ownership_check_yields_no_error_value :
  (outcome (sample_verify infinity "n1" "example.com"
              (sample_input_claiming four_hundred_nines "n1" "example.com")
              "0xsigned" (with_oracle (resolving_oracle 42))) initial
     = Normal (Rejected (ErrorObject (not_an_integer infinity))) ∧
   ¬ (∃ e, outcome (sample_verify infinity "n1" "example.com"
                      (sample_input_claiming four_hundred_nines "n1" "example.com")
                      "0xsigned" (with_oracle (resolving_oracle 42))) initial
             = Normal (Resolved (Err e)))) ∧
  (unreasoned_oracle "0xA" = Normal (Rejected Nullish) ∧
   outcome (sample_verify (integer 42) "n1" "example.com"
              (sample_input "n1" "example.com") "0xsigned"
              (with_oracle unreasoned_oracle)) initial
     = Normal (Rejected (ErrorObject nullish_context)) ∧
   ¬ (∃ e, outcome (sample_verify (integer 42) "n1" "example.com"
                      (sample_input "n1" "example.com") "0xsigned"
                      (with_oracle unreasoned_oracle)) initial
             = Normal (Resolved (Err e)))).
Proof.
  split_and!; try reflexivity.
  - intros (e & He). vm_compute in He. discriminate.
  - intros (e & He). vm_compute in He. discriminate.
Qed.

(** C4 at work: nonce "n1", domain "example.com", fid 42 claimed and
    resolved. *)
Lemma verify_roundtrip_witness :
  outcome (sample_verify (integer 42) "n1" "example.com"
             (sample_input "n1" "example.com") "0xsigned"
             (with_oracle (resolving_oracle 42))) initial
    = Normal (Resolved (Ok (mkVerifyResponse (integer 42) true
                              (sample_message "n1" "example.com")))).
Proof.
  exact (proj1 (verify_roundtrip
                  sample_validate (sample_parseResources (integer 42)) sample_siwe_verify
                  "n1" "example.com" (sample_input "n1" "example.com") "0xsigned"
                  (with_oracle (resolving_oracle 42)) initial
                  (sample_message "n1" "example.com")
                  (mkSiweResponse true None (sample_message "n1" "example.com"))
                  (mkResources (integer 42)) 42%Z
                  eq_refl eq_refl eq_refl eq_refl eq_refl eq_refl eq_refl eq_refl)).
Defined.

(** C10 at work. *)
Lemma response_keeps_all_but_error_witness :
  ∃ m r res,
    validated sample_validate "n1" "example.com" (sample_input "n1" "example.com") = Ok m ∧
    sample_siwe_verify m "0xsigned" None = Resolved r ∧
    sample_parseResources (integer 42) (data r) = Ok res ∧
    let merged := mkMerged (fid res) (success r) (error r) (data r) in
    let resp := mkVerifyResponse (integer 42) true (sample_message "n1" "example.com") in
    resp = omit_error merged ∧
    r_fid resp = m_fid merged ∧
    r_success resp = m_success merged ∧
    r_success resp = true ∧
    r_data resp = m_data merged ∧
    r_data resp = data r.
Proof.
  apply (response_keeps_all_but_error
           sample_validate (sample_parseResources (integer 42)) sample_siwe_verify
           "n1" "example.com" (sample_input "n1" "example.com") "0xsigned"
           (with_oracle (resolving_oracle 42)) initial
           (mkVerifyResponse (integer 42) true (sample_message "n1" "example.com"))).
  vm_compute. reflexivity.
Defined.

(** C8 at work: fid 0 claimed, 0 resolved. *)
Lemma fid_comparison_exact_witness :
  outcome (sample_verify (integer 0) "n1" "example.com"
             (sample_input_claiming "0" "n1" "example.com") "0xsigned"
             (with_oracle (resolving_oracle 0))) initial
    = Normal (Resolved (Ok (mkVerifyResponse (integer 0) true
                              (sample_message_claiming "0" "n1" "example.com")))).
Proof.
  exact (proj1 (proj2 (fid_comparison_exact
                  sample_validate (sample_parseResources (integer 0)) sample_siwe_verify
                  "n1" "example.com" (sample_input_claiming "0" "n1" "example.com")
                  "0xsigned"
                  (with_oracle (resolving_oracle 0)) initial
                  (sample_message_claiming "0" "n1" "example.com")
                  (mkSiweResponse true None
                     (sample_message_claiming "0" "n1" "example.com"))
                  (mkResources (integer 0)) 0%Z 0%Z
                  eq_refl eq_refl eq_refl eq_refl eq_refl eq_refl eq_refl eq_refl))
               eq_refl eq_refl).
Defined.

(** X17 at work: the registry cannot be reached. *)
Lemma oracle_rejection_is_unavailable_witness :
  outcome (sample_verify (integer 42) "n1" "example.com"
             (sample_input "n1" "example.com") "0xsigned"
             (with_oracle rejecting_oracle)) initial
    = Normal (Resolved (Err (mkConnectError unavailable
                               (CtxCause (mkError "rpc timeout"))))) ∧
  ∀ f c, EvCompareFid f c ∉
           events (sample_verify (integer 42) "n1" "example.com"
                     (sample_input "n1" "example.com") "0xsigned"
                     (with_oracle rejecting_oracle)) initial.
Proof.
  apply (oracle_rejection_is_unavailable
           sample_validate (sample_parseResources (integer 42)) sample_siwe_verify
           "n1" "example.com" (sample_input "n1" "example.com") "0xsigned"
           (with_oracle rejecting_oracle) initial "0xA" (mkError "rpc timeout")).
  - vm_compute. apply list_elem_of_further, list_elem_of_here.
  - reflexivity.
Defined.

(** C6, at the failing input: the oracle is [() => Promise.reject()]. *)
Lemma oracle_rejection_without_reason_escapes_witness :
  outcome (sample_verify (integer 42) "n1" "example.com"
             (sample_input "n1" "example.com") "0xsigned"
             (with_oracle unreasoned_oracle)) initial
    = Normal (Rejected (ErrorObject nullish_context)) ∧
  ∀ f c, EvCompareFid f c ∉
           events (sample_verify (integer 42) "n1" "example.com"
                     (sample_input "n1" "example.com") "0xsigned"
                     (with_oracle unreasoned_oracle)) initial.
Proof.
  apply (oracle_rejection_without_reason_escapes
           sample_validate (sample_parseResources (integer 42)) sample_siwe_verify
           "n1" "example.com" (sample_input "n1" "example.com") "0xsigned"
           (with_oracle unreasoned_oracle) initial "0xA").
  - vm_compute. apply list_elem_of_further, list_elem_of_here.
  - reflexivity.
Defined.

(** C9 at work: no options given. *)
Lemma default_oracle_always_rejects_witness :
  outcome (sample_verify (integer 42) "n1" "example.com"
             (sample_input "n1" "example.com") "0xsigned" None) initial
    = Normal (Resolved (Err (mkConnectError unavailable
        (CtxCause (mkError "Not implemented: Must provide an fid verifier"))))).
Proof.
  apply (proj2 (proj2 (proj2 (default_oracle_always_rejects
           sample_validate (sample_parseResources (integer 42)) sample_siwe_verify
           "n1" "example.com" (sample_input "n1" "example.com") "0xsigned" initial)))
         "0xA").
  vm_compute. apply list_elem_of_further, list_elem_of_here.
Defined.

(** C2 at work: a forged signature on a message whose resources parse
    is [unauthorized], with siwe's error type as message. *)
Lemma resources_merged_before_success_is_read_witness :
  outcome (sample_verify (integer 42) "n1" "example.com"
             (sample_input "n1" "example.com") "0xforged"
             (with_oracle (resolving_oracle 42))) initial
    = Normal (Resolved (Err (mkConnectError unauthorized
        (CtxMessage "Signature does not match address of the message.")))).
Proof.
  exact (proj1 (proj2 (resources_merged_before_success_is_read
                  sample_validate (sample_parseResources (integer 42)) sample_siwe_verify
                  "n1" "example.com" (sample_input "n1" "example.com") "0xforged"
                  (with_oracle (resolving_oracle 42)) initial
                  (sample_message "n1" "example.com")
                  (forged_response "n1" "example.com")
                  eq_refl eq_refl eq_refl eq_refl)
                (mkResources (integer 42)) eq_refl eq_refl)).
Defined.

(** The claim C2 fails on a forged signature under a message that
    claims fid 42: when the [unauthorized] error is produced the
    resource claims are merged already.  The object that is logged on
    the way, and that the call leaves in the store, carries the fid;
    had the error been produced before the merge, the store would be
    as it was. *)
Lemma rejected_signature_reported_after_merge :
  sample_siwe_verify (sample_message "n1" "example.com") "0xforged" None
    = Resolved (forged_response "n1" "example.com") ∧
  success (forged_response "n1" "example.com") = false ∧
  outcome (sample_verify (integer 42) "n1" "example.com"
             (sample_input "n1" "example.com") "0xforged"
             (with_oracle (resolving_oracle 42))) initial
    = Normal (Resolved (Err (mkConnectError unauthorized
        (CtxMessage "Signature does not match address of the message.")))) ∧
  events (sample_verify (integer 42) "n1" "example.com"
            (sample_input "n1" "example.com") "0xforged"
            (with_oracle (resolving_oracle 42))) initial
    = [EvSiweVerify (sample_message "n1" "example.com") "0xforged" None;
       EvConsoleLog
         (mkMerged (integer 42) false
            (Some (mkSiweError "Signature does not match address of the message."
                     None None))
            (sample_message "n1" "example.com"))] ∧
  (m_fid <$> heap (final (sample_verify (integer 42) "n1" "example.com"
                            (sample_input "n1" "example.com") "0xforged"
                            (with_oracle (resolving_oracle 42))) initial) !! 0)
    = Some (integer 42) ∧
  heap (final (sample_verify (integer 42) "n1" "example.com"
                 (sample_input "n1" "example.com") "0xforged"
                 (with_oracle (resolving_oracle 42))) initial)
    ≠ heap initial.
Proof.
  split_and!; try reflexivity.
  intros Heq.
  assert (heap (final (sample_verify (integer 42) "n1" "example.com"
                         (sample_input "n1" "example.com") "0xforged"
                         (with_oracle (resolving_oracle 42))) initial) !! 0
          = heap initial !! 0) as Hat by (by rewrite Heq).
  vm_compute in Hat. discriminate.
Qed.

(** C3, at the failing inputs.  A message whose fid resource is a
    numeral of four hundred digits, which is read as [Infinity],
    correctly signed, with an oracle that resolves: the promise of
    [verify] is rejected with the [RangeError] of [BigInt].  With the
    message for fid 42, an oracle that rejects without a reason, and
    one that throws, reject it as well. *)
Lemma verify_lets_exceptions_escape_witness :
  outcome (sample_verify infinity "n1" "example.com"
             (sample_input_claiming four_hundred_nines "n1" "example.com")
             "0xsigned" (with_oracle (resolving_oracle 42))) initial
    = Normal (Rejected (ErrorObject (mkError
        "RangeError: The number Infinity cannot be converted to a BigInt because it is not an integer"))) ∧
  outcome (sample_verify (integer 42) "n1" "example.com"
             (sample_input "n1" "example.com") "0xsigned"
             (with_oracle unreasoned_oracle)) initial
    = Normal (Rejected (ErrorObject nullish_context)) ∧
  outcome (sample_verify (integer 42) "n1" "example.com"
             (sample_input "n1" "example.com") "0xsigned"
             (with_oracle throwing_oracle)) initial
    = Normal (Rejected (ErrorObject (mkError "invalid address"))).
Proof.
  split_and!.
  - exact (proj2 (proj2 (verify_lets_exceptions_escape
             sample_validate (sample_parseResources infinity) sample_siwe_verify
             "n1" "example.com"
             (sample_input_claiming four_hundred_nines "n1" "example.com")
             "0xsigned" (with_oracle (resolving_oracle 42)) initial
             (sample_message_claiming four_hundred_nines "n1" "example.com")
             (mkSiweResponse true None
                (sample_message_claiming four_hundred_nines "n1" "example.com"))
             (mkResources infinity)
             eq_refl eq_refl eq_refl eq_refl eq_refl eq_refl))
           42%Z eq_refl eq_refl).
  - exact (proj1 (proj2 (verify_lets_exceptions_escape
             sample_validate (sample_parseResources (integer 42)) sample_siwe_verify
             "n1" "example.com" (sample_input "n1" "example.com")
             "0xsigned" (with_oracle unreasoned_oracle) initial
             (sample_message "n1" "example.com")
             (mkSiweResponse true None (sample_message "n1" "example.com"))
             (mkResources (integer 42))
             eq_refl eq_refl eq_refl eq_refl eq_refl eq_refl))
           eq_refl).
  - exact (proj1 (verify_lets_exceptions_escape
             sample_validate (sample_parseResources (integer 42)) sample_siwe_verify
             "n1" "example.com" (sample_input "n1" "example.com")
             "0xsigned" (with_oracle throwing_oracle) initial
             (sample_message "n1" "example.com")
             (mkSiweResponse true None (sample_message "n1" "example.com"))
             (mkResources (integer 42))
             eq_refl eq_refl eq_refl eq_refl eq_refl eq_refl)
           (ErrorObject (mkError "invalid address")) eq_refl).
Defined.

(** C5 at work: fid 42 claimed, 43 resolved; and 10^21 claimed, which
    renders as 1e+21. *)
Lemma ownership_mismatch_is_unauthorized_witness :
  outcome (sample_verify (integer 42) "n1" "example.com"
             (sample_input "n1" "example.com") "0xsigned"
             (with_oracle (resolving_oracle 43))) initial
    = Normal (Resolved (Err (mkConnectError unauthorized
        (CtxMessage "Invalid resource: signer 0xA does not own fid 42.")))) ∧
  outcome (sample_verify sextillion "n1" "example.com"
             (sample_input_claiming "1000000000000000000000" "n1" "example.com")
             "0xsigned" (with_oracle (resolving_oracle 43))) initial
    = Normal (Resolved (Err (mkConnectError unauthorized
        (CtxMessage "Invalid resource: signer 0xA does not own fid 1e+21.")))).
Proof.
  split.
  - exact (proj1 (proj2 (ownership_mismatch_is_unauthorized
                  sample_validate (sample_parseResources (integer 42)) sample_siwe_verify)
                "n1" "example.com" (sample_input "n1" "example.com") "0xsigned"
                (with_oracle (resolving_oracle 43)) initial
                (sample_message "n1" "example.com")
                (mkSiweResponse true None (sample_message "n1" "example.com"))
                (mkResources (integer 42)) 42%Z 43%Z
                eq_refl eq_refl eq_refl eq_refl eq_refl eq_refl eq_refl eq_refl
                ltac:(vm_compute; discriminate))).
  - exact (proj1 (proj2 (ownership_mismatch_is_unauthorized
                  sample_validate (sample_parseResources sextillion) sample_siwe_verify)
                "n1" "example.com"
                (sample_input_claiming "1000000000000000000000" "n1" "example.com")
                "0xsigned"
                (with_oracle (resolving_oracle 43)) initial
                (sample_message_claiming "1000000000000000000000" "n1" "example.com")
                (mkSiweResponse true None
                   (sample_message_claiming "1000000000000000000000" "n1" "example.com"))
                (mkResources sextillion) (10 ^ 21)%Z 43%Z
                eq_refl eq_refl eq_refl eq_refl eq_refl eq_refl eq_refl eq_refl
                ltac:(vm_compute; discriminate))).
Defined.

(** The claim C5 fails where it says the message names both fids: with
    42 claimed and 43 resolved the message names 42 only. *)
Lemma ownership_message_omits_resolved_fid :
  ∃ e,
    outcome (sample_verify (integer 42) "n1" "example.com"
               (sample_input "n1" "example.com") "0xsigned"
               (with_oracle (resolving_oracle 43))) initial
      = Normal (Resolved (Err e)) ∧
    errCode e = unauthorized ∧
    message_of e = "Invalid resource: signer 0xA does not own fid 42." ∧
    contains (Number_toString (integer 42)) (message_of e) = true ∧
    contains (BigInt_toString 43) (message_of e) = false.
Proof. eexists. repeat split; vm_compute; reflexivity. Qed.

(** C7 at work: "N1" is not "n1", and "Example.com" is not
    "example.com". *)
Lemma nonce_then_domain_mismatch_witness :
  outcome (sample_verify (integer 42) "n1" "example.com"
             (sample_input "N1" "example.com") "0xsigned"
             (with_oracle (resolving_oracle 42))) initial
    = Normal (Resolved (Err (mkConnectError unauthorized (CtxMessage "Invalid nonce")))) ∧
  outcome (sample_verify (integer 42) "n1" "example.com"
             (sample_input "n1" "Example.com") "0xsigned"
             (with_oracle (resolving_oracle 42))) initial
    = Normal (Resolved (Err (mkConnectError unauthorized (CtxMessage "Invalid domain")))).
Proof.
  split.
  - apply (proj1 (nonce_then_domain_mismatch
             sample_validate (sample_parseResources (integer 42)) sample_siwe_verify
             "n1" "example.com" (sample_input "N1" "example.com") "0xsigned"
             (with_oracle (resolving_oracle 42)) initial
             (sample_message "N1" "example.com") eq_refl)).
    vm_compute. discriminate.
  - apply (proj1 (proj2 (nonce_then_domain_mismatch
             sample_validate (sample_parseResources (integer 42)) sample_siwe_verify
             "n1" "example.com" (sample_input "n1" "Example.com") "0xsigned"
             (with_oracle (resolving_oracle 42)) initial
             (sample_message "n1" "Example.com") eq_refl))).
    + reflexivity.
    + vm_compute. discriminate.
Defined.

(** The claim C7 fails for a message in which both the nonce and the
    domain are off: the domain differs from the expected one, and the
    message of the error is "Invalid nonce". *)
Lemma wrong_domain_reported_as_invalid_nonce :
  sample_validate (sample_input "n2" "other.com")
    = Ok (sample_message "n2" "other.com") ∧
  domain (sample_message "n2" "other.com") ≠ "example.com" ∧
  outcome (sample_verify (integer 42) "n1" "example.com"
             (sample_input "n2" "other.com") "0xsigned"
             (with_oracle (resolving_oracle 42))) initial
    = Normal (Resolved (Err (mkConnectError unauthorized (CtxMessage "Invalid nonce")))) ∧
  outcome (sample_verify (integer 42) "n1" "example.com"
             (sample_input "n2" "other.com") "0xsigned"
             (with_oracle (resolving_oracle 42))) initial
    ≠ Normal (Resolved (Err (mkConnectError unauthorized (CtxMessage "Invalid domain")))).
Proof.
  repeat split; try reflexivity; vm_compute; discriminate.
Qed.
(** * Further properties of the pipeline *)

(** ** The validators *)

(** X1. [validateNonce] and [validateDomain] hand the message on
    unchanged, and together they succeed exactly when both fields are
    the expected ones, in whichever order they are chained. *)
Theorem validators_pass_message_through m nonce' domain' m' :
  (andThen (validateNonce m nonce') (λ x, validateDomain x domain') = Ok m'
   ↔ m' = m ∧ nonce m = nonce' ∧ domain m = domain') ∧
  (andThen (validateDomain m domain') (λ x, validateNonce x nonce') = Ok m'
   ↔ m' = m ∧ nonce m = nonce' ∧ domain m = domain').
Proof.
  unfold andThen, validateNonce, validateDomain.
  split; repeat case_bool_decide; split;
    try (intros [= <-]); try (intros (-> & ? & ?)); try done.
Qed.

Section Errors.

Variable validate : MessageInput → Result SiweMessage.
Variable parseResources : SiweMessage → Result FarcasterResourceParams.
Variable siwe_verify : SiweMessage → string → option Provider → Promise SiweResponse.

#[local] Abbreviation verify' := (verify validate parseResources siwe_verify).

(** X2. An error of [validate] is the result of [verify], unchanged,
    and neither siwe nor the oracle nor the console is touched. *)
Theorem validate_error_returned_unchanged
    nonce' domain' message signature options s e :
  validate message = Err e →
  outcome (verify' nonce' domain' message signature options) s
    = Normal (Resolved (Err e)) ∧
  events (verify' nonce' domain' message signature options) s = [].
Proof.
  intros Hv. rewrite verify_outcome, verify_events.
  unfold verify_summary, validated. rewrite Hv. done.
Qed.

(** X3. [verify] does not invent failures: an error value comes out
    only if one of the checks reported one. *)
Theorem verify_error_only_if_step_fails
    nonce' domain' message signature options s e :
  outcome (verify' nonce' domain' message signature options) s
    = Normal (Resolved (Err e)) →
  step_fails validate parseResources siwe_verify
    nonce' domain' message signature options.
Proof.
  rewrite verify_outcome. unfold verify_summary.
  destruct (validated _ _ _ _) as [m|e0] eqn:Hv.
  - apply validated_Ok in Hv as (Hv & Hn & Hd). cbn zeta.
    destruct (siwe_verify m signature _) as [r|reason|] eqn:Hsig; [| |done].
    2:{ cbn. destruct (newConnectError unauthorized reason) eqn:Hnew; [|done..].
        intros _. by eapply fails_signature_rejected. }
    destruct (parseResources (data r)) as [res|e1] eqn:Hres;
      [|intros _; by eapply fails_resources].
    destruct (success r) eqn:Hok; cbn [negb];
      [|intros _; by eapply fails_signature].
    destruct (getFid _ _) as [[f|reason|]|exn|] eqn:Hfid; cbn [fst]; try done.
    + unfold BigInt.
      destruct (integer_value (fid res)) as [claimed|] eqn:Hint; [|done].
      cbn [fst]. case_bool_decide as Hown; [|done]. intros _. by eapply fails_owner.
    + destruct (newConnectError unavailable reason) eqn:Hnew; [|done..].
      intros _. by eapply fails_oracle.
  - intros _. unfold validated in Hv.
    destruct (validate message) as [m|e1] eqn:Hm; [|by eapply fails_validate].
    unfold andThen, validateNonce, validateDomain in Hv.
    case_bool_decide as Hn; [by eapply fails_nonce|].
    case_bool_decide as Hd; [by eapply fails_domain|done].
Qed.

(** X7. The only kinds of error [verify] makes itself are
    [unauthorized] and [unavailable]; an error of any other kind was
    made by [validate] or by [parseResources] and is passed on as it
    is.  And [verify] makes an [unavailable] error only out of what
    the oracle's promise was rejected with. *)
Theorem verify_error_kinds
    nonce' domain' message signature options s e :
  outcome (verify' nonce' domain' message signature options) s
    = Normal (Resolved (Err e)) →
  validate message = Err e ∨
  (∃ m r, validated validate nonce' domain' message = Ok m ∧
          siwe_verify m signature (provider (effective options)) = Resolved r ∧
          parseResources (data r) = Err e) ∨
  errCode e = unauthorized ∨
  (∃ m r reason,
     validated validate nonce' domain' message = Ok m ∧
     siwe_verify m signature (provider (effective options)) = Resolved r ∧
     getFid (effective options) (address (data r)) = Normal (Rejected reason) ∧
     newConnectError unavailable reason = Normal e ∧
     errCode e = unavailable).
Proof.
  rewrite verify_outcome. unfold verify_summary.
  destruct (validated _ _ _ _) as [m|e0] eqn:Hv.
  - cbn zeta.
    destruct (siwe_verify m signature _) as [r|reason|] eqn:Hsig; [| |done].
    2:{ destruct reason; cbn; [done|intros [= <-]; by right; right; left..]. }
    destruct (parseResources (data r)) as [res|e1] eqn:Hres;
      [|intros [= <-]; right; left; by exists m, r].
    destruct (success r) eqn:Hok; cbn [negb];
      [|intros [= <-]; by right; right; left].
    destruct (getFid _ _) as [[f|reason|]|exn|] eqn:Hfid; cbn [fst]; try done.
    + destruct (BigInt (fid res)) as [claimed|?|]; try done.
      cbn [fst]. case_bool_decide; intros [= <-]. by right; right; left.
    + destruct (newConnectError unavailable reason) as [e'|?|] eqn:Hnew;
        cbn [settle]; try done.
      intros [= <-]. right; right; right. exists m, r, reason.
      split_and!; try done. destruct reason; cbn in Hnew; by simplify_eq.
  - intros [= <-]. unfold validated in Hv.
    destruct (validate message) as [m|e1] eqn:Hm; [|left; by simplify_eq/=].
    unfold andThen, validateNonce, validateDomain in Hv.
    repeat case_bool_decide; simplify_eq; by right; right; left.
Qed.

End Errors.

(** ** What [verify] does on the way *)

Section Effects.

Variable validate : MessageInput → Result SiweMessage.
Variable parseResources : SiweMessage → Result FarcasterResourceParams.
Variable siwe_verify : SiweMessage → string → option Provider → Promise SiweResponse.

#[local] Abbreviation verify' := (verify validate parseResources siwe_verify).

(** X4. The oracle is called at most once, without retry; it is called
    exactly when the message is valid, the signature outcome has its
    success flag set and the resources parse; and it is asked about the
    address in the [data] of that outcome. *)
Theorem oracle_called_at_most_once
    nonce' domain' message signature options s :
  (oracle_calls (events (verify' nonce' domain' message signature options) s) ≤ 1)%nat ∧
  ∀ a,
    EvGetFid a ∈ events (verify' nonce' domain' message signature options) s ↔
    ∃ m r res,
      validated validate nonce' domain' message = Ok m ∧
      siwe_verify m signature (provider (effective options)) = Resolved r ∧
      parseResources (data r) = Ok res ∧
      success r = true ∧
      a = address (data r).
Proof.
  rewrite verify_events. unfold verify_summary, oracle_calls. split.
  - by_cases_on_summary; cbn; lia.
  - intros a. split.
    + by_cases_on_summary; rewrite ?elem_of_cons, ?elem_of_nil;
        intros Hcall; destruct_or?; simplify_eq; eauto 10.
    + intros (m & r & res & -> & -> & -> & -> & ->). cbn.
      destruct (getFid _ _) as [[f|reason|]|exn|];
        [destruct (BigInt (fid res))|..]; cbn;
        apply list_elem_of_further, list_elem_of_here.
Qed.

(** X5. Whenever anything happens at all, the first thing is the one
    call of siwe's [verify], on the validated message, with the given
    signature and the provider of the options (none when the options
    are left out); the oracle and the console come after it. *)
Theorem siwe_verify_called_first
    nonce' domain' message signature options s :
  (siwe_calls (events (verify' nonce' domain' message signature options) s) ≤ 1)%nat ∧
  (events (verify' nonce' domain' message signature options) s = [] ∨
   ∃ m rest,
     validated validate nonce' domain' message = Ok m ∧
     events (verify' nonce' domain' message signature options) s
       = EvSiweVerify m signature (provider (effective options)) :: rest) ∧
  provider (effective None) = None.
Proof.
  rewrite verify_events. unfold verify_summary, siwe_calls.
  split; [|split; [|done]].
  - by_cases_on_summary; cbn; lia.
  - destruct (validated _ _ _ _) as [m|e]; [|by left].
    right. exists m. cbn zeta. by_cases_on_summary; eauto.
Qed.

(** X6. The console is written to in one situation only: the
    resources parse and the signature outcome has its success flag
    cleared.  What is logged is the merged object. *)
Theorem console_log_only_on_rejected_signature
    nonce' domain' message signature options s o :
  EvConsoleLog o ∈ events (verify' nonce' domain' message signature options) s ↔
  ∃ m r res,
    validated validate nonce' domain' message = Ok m ∧
    siwe_verify m signature (provider (effective options)) = Resolved r ∧
    parseResources (data r) = Ok res ∧
    success r = false ∧
    o = mkMerged (fid res) false (error r) (data r).
Proof.
  rewrite verify_events. unfold verify_summary. split.
  - by_cases_on_summary; rewrite ?elem_of_cons, ?elem_of_nil;
      intros Hlog; destruct_or?; simplify_eq; eauto 10.
  - intros (m & r & res & -> & -> & -> & Hok & ->). cbn. rewrite Hok. cbn.
    apply list_elem_of_further, list_elem_of_here.
Qed.

(** X8. In a response of [verify] the fid belongs to the address: the
    fid is an integer, and the oracle, asked about the address in the
    response's data, resolves that integer. *)
Theorem response_fid_owned_by_response_address
    nonce' domain' message signature options s resp :
  outcome (verify' nonce' domain' message signature options) s
    = Normal (Resolved (Ok resp)) →
  ∃ z,
    integer_value (r_fid resp) = Some z ∧
    getFid (effective options) (address (r_data resp)) = Normal (Resolved z).
Proof.
  rewrite verify_outcome. unfold verify_summary.
  destruct (validated _ _ _ _) as [m|e] eqn:Hv; [|done].
  cbn zeta.
  destruct (siwe_verify m signature _) as [r|reason|] eqn:Hsig; [| |done].
  2:{ cbn. by destruct (newConnectError unauthorized reason). }
  destruct (parseResources (data r)) as [res|?] eqn:Hres; [|done].
  destruct (success r) eqn:Hok; cbn [negb]; [|done].
  destruct (getFid _ _) as [[f|reason|]|?|] eqn:Hfid; try done.
  2:{ cbn. by destruct (newConnectError unavailable reason). }
  unfold BigInt. destruct (integer_value (fid res)) as [claimed|] eqn:Hint; [|done].
  case_bool_decide as Hown; intros [= <-]. cbn.
  exists claimed. split; [done|].
  rewrite Hfid. destruct (decide (f = claimed)) as [->|]; done.
Qed.

(** X9. If siwe's [verify] answers with the message it was called on,
    the data of a response of [verify] is the validated message: it
    carries the expected nonce and the expected domain. *)
Theorem response_bound_to_session
    nonce' domain' message signature options s resp :
  echoes_message siwe_verify →
  outcome (verify' nonce' domain' message signature options) s
    = Normal (Resolved (Ok resp)) →
  validate message = Ok (r_data resp) ∧
  nonce (r_data resp) = nonce' ∧
  domain (r_data resp) = domain'.
Proof.
  intros Hecho. rewrite verify_outcome. unfold verify_summary.
  destruct (validated _ _ _ _) as [m|e] eqn:Hv; [|done].
  apply validated_Ok in Hv as (Hm & Hn & Hd). cbn zeta.
  destruct (siwe_verify m signature _) as [r|reason|] eqn:Hsig; [| |done].
  2:{ cbn. by destruct (newConnectError unauthorized reason). }
  apply Hecho in Hsig.
  destruct (parseResources (data r)) as [res|?] eqn:Hres; [|done].
  destruct (success r) eqn:Hok; cbn [negb]; [|done].
  destruct (getFid _ _) as [[f|reason|]|?|] eqn:Hfid; try done.
  2:{ cbn. by destruct (newConnectError unavailable reason). }
  destruct (BigInt (fid res)) as [claimed|?|]; try done.
  case_bool_decide as Hown; intros [= <-]. cbn. by rewrite Hsig.
Qed.

(** X12. The [getFid] of [viem.ts] never throws, whatever the registry
    read does.  With it as the oracle of [verify], a read that throws
    an [Error], or whose promise is rejected with one, for the signer's
    address gives an [unavailable] error that wraps it. *)
Theorem viem_oracle_failures_are_unavailable
    nonce' domain' message signature readContract prov s :
  (∀ custody exn, viem_getFid readContract custody ≠ Thrown exn) ∧
  ∀ m r res reason,
    validated validate nonce' domain' message = Ok m →
    siwe_verify m signature prov = Resolved r →
    parseResources (data r) = Ok res →
    success r = true →
    (readContract (address (data r)) = Thrown (ErrorObject reason) ∨
     readContract (address (data r)) = Normal (Rejected (ErrorObject reason))) →
    outcome (verify' nonce' domain' message signature
               (Some (mkOpts (viem_getFid readContract) prov))) s
      = Normal (Resolved (Err (mkConnectError unavailable (CtxCause reason)))).
Proof.
  split.
  - intros custody exn. unfold viem_getFid. by destruct (readContract custody).
  - rewrite verify_outcome. unfold verify_summary.
    change (effective (Some ?o)) with o. cbn [getFid provider]. unfold viem_getFid.
    intros m r res reason -> -> -> -> [-> | ->]; done.
Qed.

End Effects.

(** ** The store *)

Section Store.

Variable validate : MessageInput → Result SiweMessage.
Variable parseResources : SiweMessage → Result FarcasterResourceParams.
Variable siwe_verify : SiweMessage → string → option Provider → Promise SiweResponse.

#[local] Abbreviation verify' := (verify validate parseResources siwe_verify).

(** A call of [verify] leaves the store as it was, or adds the one
    object it made. *)
Lemma verify_store nonce' domain' message signature options s :
  ∃ c s',
    verify' nonce' domain' message signature options s = (c, s') ∧
    ((heap s' = heap s ∧ next s' = next s) ∨
     (∃ o, heap s' = <[next s := o]> (heap s) ∧ next s' = S (next s))).
Proof.
  unfold verify. unfold async at 1.
  destruct (andThen _ _) as [m|e]; simpl; [|by eauto 10].
  unfold mbind at 1, M_bind at 1. rewrite verifySiweMessage_run.
  destruct (siwe_verify m signature _) as [r|reason|]; cbn [fromPromise];
    [|destruct (newConnectError unauthorized reason); simpl; by eauto 10
     |simpl; by eauto 10].
  unfold mbind at 1, M_bind at 1, await at 1, mret at 1, M_ret at 1.
  unfold mbind at 1, M_bind at 1. rewrite mergeResources_run.
  destruct (parseResources (data r)) as [res|e]; [|simpl; by eauto 10].
  cbn [push heap next trace].
  set (o := mkMerged (fid res) (success r) (error r) (data r)).
  set (s1 := mkState _ _ _).
  assert (Hl : heap s1 !! next s = Some o) by apply lookup_insert_eq.
  unfold mbind at 1, M_bind at 1, deref at 1. rewrite Hl.
  destruct (success r) eqn:Hs; cbn [m_success o negb].
  - unfold mbind at 1, M_bind at 1.
    rewrite (verifyFidOwner_run (next s) o _ s1 Hl). cbn zeta.
    destruct (getFid _ _) as [[f|reason|]|e|].
    + destruct (BigInt (m_fid o)) as [claimed|?|].
      * case_bool_decide; run_step; repeat (rewrite lookup_insert_eq; simpl);
          rewrite ?insert_insert_eq; eauto 10.
      * run_step. eauto 10.
      * run_step. eauto 10.
    + destruct (newConnectError unavailable reason); run_step; eauto 10.
    + run_step. eauto 10.
    + run_step. eauto 10.
    + run_step. eauto 10.
  - run_step. eauto 10.
Qed.

(** X10. [verify] keeps no state and shares none: started in any
    store, it leaves every object that was there untouched and the
    store well formed, and its completion and events do not depend on
    the store it was started in. *)
Theorem verify_leaves_store_alone
    nonce' domain' message signature options s :
  store_wf s →
  store_wf (final (verify' nonce' domain' message signature options) s) ∧
  (∀ l o, heap s !! l = Some o →
     heap (final (verify' nonce' domain' message signature options) s) !! l = Some o) ∧
  (∀ s2, exec (verify' nonce' domain' message signature options) s2
         = exec (verify' nonce' domain' message signature options) s).
Proof.
  intros Hwf. unfold final.
  destruct (verify_store nonce' domain' message signature options s)
    as (c & s' & -> & [[Hh Hn]|(o & Hh & Hn)]); cbn [snd]; split_and!.
  - intros l. rewrite Hh, Hn. apply Hwf.
  - intros l o. by rewrite Hh.
  - intros s2. by rewrite !verify_exec.
  - intros l. rewrite Hh, Hn. destruct (decide (l = next s)) as [->|Hne].
    + lia.
    + rewrite lookup_insert_ne by done. intros Hsome%Hwf. lia.
  - intros l o0 Hl. rewrite Hh. rewrite lookup_insert_ne; [done|].
    intros <-. assert (next s < next s) by (apply Hwf; eauto). lia.
  - intros s2. by rewrite !verify_exec.
Qed.

End Store.

(** X11. [verifyFidOwner] writes to the response it is given and to
    nothing else; there it keeps the fid and the data, and it never
    sets the success flag: a response that has the flag set afterwards
    is the response as it was. *)
Theorem verifyFidOwner_only_clears_success l o (g : FidVerifier) s :
  heap s !! l = Some o →
  ∃ o',
    heap (final (verifyFidOwner l g) s) !! l = Some o' ∧
    m_fid o' = m_fid o ∧
    m_data o' = m_data o ∧
    (m_success o' = true → o' = o) ∧
    (∀ l', l' ≠ l → heap (final (verifyFidOwner l g) s) !! l' = heap s !! l') ∧
    next (final (verifyFidOwner l g) s) = next s.
Proof.
  intros Hl. unfold final. rewrite (verifyFidOwner_run l o g s Hl). cbn zeta.
  destruct (g (address (m_data o))) as [[f|reason|]|e|];
    [destruct (BigInt (m_fid o)) as [claimed|?|]|..];
    cbn [snd push heap next]; try (exists o; done).
  case_bool_decide; cbn [heap next].
  - exists (disowned o f). rewrite lookup_insert_eq. split_and!; try done.
    intros l' Hne. by rewrite lookup_insert_ne.
  - exists o. done.
Qed.

(** X13. For a claimed fid that is an integer of magnitude up to 2^53,
    the ownership error [verifyFidOwner] stores tells the two fids
    apart: its [expected] and [received] fields are the decimal
    numerals of the claimed and of the resolved fid, they are never
    equal, and each of the two fids can be read back from its field. *)
Theorem ownership_error_tells_fids_apart l o (g : FidVerifier) s claimed f :
  heap s !! l = Some o →
  m_fid o = integer claimed →
  (Z.abs claimed ≤ 2 ^ 53)%Z →
  g (address (m_data o)) = Normal (Resolved f) →
  f ≠ claimed →
  ∃ o' e,
    heap (final (verifyFidOwner l g) s) !! l = Some o' ∧
    m_error o' = Some e ∧
    expected e = Some (BigInt_toString claimed) ∧
    received e = Some (BigInt_toString f) ∧
    expected e ≠ received e ∧
    (∀ z, expected e = Some (BigInt_toString z) → z = claimed) ∧
    (∀ z, received e = Some (BigInt_toString z) → z = f).
Proof.
  intros Hl Hfid Hsafe Hg Hne. unfold final.
  rewrite (verifyFidOwner_run l o g s Hl). cbn zeta. rewrite Hg.
  unfold BigInt. rewrite Hfid. cbn [integer_value integer].
  rewrite bool_decide_eq_true_2 by done. cbn [snd heap].
  exists (disowned o f),
    (mkSiweError (ownership_message (address (m_data o)) (m_fid o))
       (Some (BigInt_toString claimed)) (Some (BigInt_toString f))).
  rewrite lookup_insert_eq. unfold BigInt_toString. split_and!; try done.
  - unfold disowned, Number_toString, BigInt_toString. rewrite Hfid. done.
  - cbn. intros [= Heq]. apply Hne. symmetry.
    by apply (inj (pretty : Z → string)).
  - cbn. intros z [= Heq]. symmetry. by apply (inj (pretty : Z → string)).
  - cbn. intros z [= Heq]. symmetry. by apply (inj (pretty : Z → string)).
Qed.

(** ** The oracle as seen by [verify] *)

Section Oracle.

Variable validate : MessageInput → Result SiweMessage.
Variable parseResources : SiweMessage → Result FarcasterResourceParams.
Variable siwe_verify : SiweMessage → string → option Provider → Promise SiweResponse.

#[local] Abbreviation verify' := (verify validate parseResources siwe_verify).

(** X14. [verify] depends on the oracle through its answer for the
    signer alone: two oracles that agree on the address [verify] asks
    about give the same completion and the same events. *)
Theorem verify_reads_oracle_at_signer_only
    nonce' domain' message signature (g1 g2 : FidVerifier) prov s :
  (∀ a, EvGetFid a ∈ events (verify' nonce' domain' message signature
                               (Some (mkOpts g1 prov))) s →
        g1 a = g2 a) →
  exec (verify' nonce' domain' message signature (Some (mkOpts g1 prov))) s
  = exec (verify' nonce' domain' message signature (Some (mkOpts g2 prov))) s.
Proof.
  rewrite verify_events, !verify_exec. unfold verify_summary.
  change (effective (Some ?o)) with o. cbn [getFid provider].
  destruct (validated _ _ _ _) as [m|e]; [|done]. cbn zeta.
  destruct (siwe_verify m signature prov) as [r|reason|]; [|done..].
  destruct (parseResources (data r)) as [res|e]; [|done].
  destruct (success r); cbn [negb]; [|done].
  intros Hagree. rewrite <- (Hagree (address (data r))); [done|].
  destruct (g1 (address (data r))) as [[f|reason|]|exn|];
    [destruct (BigInt (fid res))|..]; cbn [snd];
    apply list_elem_of_further, list_elem_of_here.
Qed.

(** X15. A successful verification has consulted siwe once, then the
    oracle once, about the address in the response, then compared the
    two fids; it has written nothing to the console. *)
Theorem successful_run_events
    nonce' domain' message signature options s resp :
  outcome (verify' nonce' domain' message signature options) s
    = Normal (Resolved (Ok resp)) →
  ∃ m z,
    validate message = Ok m ∧
    integer_value (r_fid resp) = Some z ∧
    events (verify' nonce' domain' message signature options) s
      = [EvSiweVerify m signature (provider (effective options));
         EvGetFid (address (r_data resp));
         EvCompareFid z z].
Proof.
  rewrite verify_outcome, verify_events. unfold verify_summary.
  destruct (validated _ _ _ _) as [m|e] eqn:Hv; [|done].
  apply validated_Ok in Hv as (Hm & _ & _). cbn zeta.
  destruct (siwe_verify m signature _) as [r|reason|]; [| |done].
  2:{ cbn. by destruct (newConnectError unauthorized reason). }
  destruct (parseResources (data r)) as [res|?]; [|done].
  destruct (success r); cbn [negb]; [|done].
  destruct (getFid _ _) as [[f|reason|]|?|]; try done.
  2:{ cbn. by destruct (newConnectError unavailable reason). }
  unfold BigInt. destruct (integer_value (fid res)) as [claimed|] eqn:Hint; [|done].
  cbn [fst snd]. case_bool_decide as Hown; intros [= <-]. exists m, claimed. cbn.
  destruct (decide (f = claimed)) as [->|]; done.
Qed.

End Oracle.

(** ** The further properties on concrete inputs *)

(** X2 at work: text the sample validator cannot parse. *)
Lemma validate_error_returned_unchanged_witness :
  outcome (sample_verify (integer 42) "n1" "example.com" (MsgText "hello")
             "0xsigned" None) initial
    = Normal (Resolved (Err (mkConnectError bad_request
                               (CtxMessage "Unable to parse message")))) ∧
  events (sample_verify (integer 42) "n1" "example.com" (MsgText "hello")
            "0xsigned" None) initial = [].
Proof.
  exact (validate_error_returned_unchanged
           sample_validate (sample_parseResources (integer 42)) sample_siwe_verify
           "n1" "example.com" (MsgText "hello") "0xsigned" None initial
           (mkConnectError bad_request (CtxMessage "Unable to parse message"))
           eq_refl).
Defined.

(** X3 at work: the error for a forged signature has a failing step
    behind it. *)
Lemma verify_error_only_if_step_fails_witness :
  step_fails sample_validate (sample_parseResources (integer 42)) sample_siwe_verify
    "n1" "example.com" (sample_input "n1" "example.com") "0xforged"
    (with_oracle (resolving_oracle 42)).
Proof.
  apply (verify_error_only_if_step_fails
           sample_validate (sample_parseResources (integer 42)) sample_siwe_verify
           "n1" "example.com" (sample_input "n1" "example.com") "0xforged"
           (with_oracle (resolving_oracle 42)) initial
           (mkConnectError unauthorized
              (CtxMessage "Signature does not match address of the message."))).
  vm_compute. reflexivity.
Defined.

(** X7 at work: the error for an oracle that cannot reach the
    registry. *)
Lemma verify_error_kinds_witness :
  let e := mkConnectError unavailable (CtxCause (mkError "rpc timeout")) in
  sample_validate (sample_input "n1" "example.com") = Err e ∨
  (∃ m r, validated sample_validate "n1" "example.com"
            (sample_input "n1" "example.com") = Ok m ∧
          sample_siwe_verify m "0xsigned" None = Resolved r ∧
          sample_parseResources (integer 42) (data r) = Err e) ∨
  errCode e = unauthorized ∨
  (∃ m r reason,
     validated sample_validate "n1" "example.com"
       (sample_input "n1" "example.com") = Ok m ∧
     sample_siwe_verify m "0xsigned" None = Resolved r ∧
     rejecting_oracle (address (data r)) = Normal (Rejected reason) ∧
     newConnectError unavailable reason = Normal e ∧
     errCode e = unavailable).
Proof.
  apply (verify_error_kinds
           sample_validate (sample_parseResources (integer 42)) sample_siwe_verify
           "n1" "example.com" (sample_input "n1" "example.com") "0xsigned"
           (with_oracle rejecting_oracle) initial).
  vm_compute. reflexivity.
Defined.

(** X8 at work. *)
Lemma response_fid_owned_by_response_address_witness :
  ∃ z, integer_value (integer 42) = Some z ∧
       resolving_oracle 42 "0xA" = Normal (Resolved z).
Proof.
  apply (response_fid_owned_by_response_address
           sample_validate (sample_parseResources (integer 42)) sample_siwe_verify
           "n1" "example.com" (sample_input "n1" "example.com") "0xsigned"
           (with_oracle (resolving_oracle 42)) initial
           (mkVerifyResponse (integer 42) true (sample_message "n1" "example.com"))).
  vm_compute. reflexivity.
Defined.

(** X9 at work: the sample verifier answers with the message it was
    given. *)
Lemma response_bound_to_session_witness :
  sample_validate (sample_input "n1" "example.com")
    = Ok (sample_message "n1" "example.com") ∧
  nonce (sample_message "n1" "example.com") = "n1" ∧
  domain (sample_message "n1" "example.com") = "example.com".
Proof.
  apply (response_bound_to_session
           sample_validate (sample_parseResources (integer 42)) sample_siwe_verify
           "n1" "example.com" (sample_input "n1" "example.com") "0xsigned"
           (with_oracle (resolving_oracle 42)) initial
           (mkVerifyResponse (integer 42) true (sample_message "n1" "example.com"))).
  - intros m signature prov r. unfold sample_siwe_verify.
    destruct (bool_decide (signature = "0xsigned")); intros [= <-]; reflexivity.
  - vm_compute. reflexivity.
Defined.

(** X10 at work: a call in a store that already holds a response. *)
Lemma verify_leaves_store_alone_witness :
  heap (final (sample_verify (integer 7) "n1" "example.com"
                 (sample_input_claiming "7" "n1" "example.com") "0xsigned"
                 (with_oracle (resolving_oracle 8))) sample_store) !! 0
    = Some sample_response.
Proof.
  apply (verify_leaves_store_alone
           sample_validate (sample_parseResources (integer 7)) sample_siwe_verify
           "n1" "example.com" (sample_input_claiming "7" "n1" "example.com")
           "0xsigned" (with_oracle (resolving_oracle 8)) sample_store).
  - intros l [o Hl]. destruct (decide (l = 0)) as [->|Hne]; [simpl; lia|].
    unfold sample_store in Hl. cbn [heap] in Hl.
    rewrite lookup_singleton_ne in Hl by done. discriminate.
  - reflexivity.
Defined.

(** X11 at work: 43 resolved for the response that claims 42. *)
Lemma verifyFidOwner_only_clears_success_witness :
  ∃ o',
    heap (final (verifyFidOwner 0 (resolving_oracle 43)) sample_store) !! 0 = Some o' ∧
    m_fid o' = integer 42 ∧
    m_data o' = sample_message "n1" "example.com" ∧
    (m_success o' = true → o' = sample_response) ∧
    (∀ l', l' ≠ 0 →
       heap (final (verifyFidOwner 0 (resolving_oracle 43)) sample_store) !! l'
         = heap sample_store !! l') ∧
    next (final (verifyFidOwner 0 (resolving_oracle 43)) sample_store) = 1.
Proof.
  exact (verifyFidOwner_only_clears_success 0 sample_response
           (resolving_oracle 43) sample_store eq_refl).
Defined.

(** X13 at work: expected "42", received "43". *)
Lemma ownership_error_tells_fids_apart_witness :
  ∃ o' e,
    heap (final (verifyFidOwner 0 (resolving_oracle 43)) sample_store) !! 0 = Some o' ∧
    m_error o' = Some e ∧
    expected e = Some "42" ∧
    received e = Some "43" ∧
    expected e ≠ received e ∧
    (∀ z, expected e = Some (BigInt_toString z) → z = 42%Z) ∧
    (∀ z, received e = Some (BigInt_toString z) → z = 43%Z).
Proof.
  apply (ownership_error_tells_fids_apart 0 sample_response
           (resolving_oracle 43) sample_store 42 43 eq_refl eq_refl).
  - vm_compute. discriminate.
  - reflexivity.
  - vm_compute. discriminate.
Defined.

(** X12 at work: the registry read reverts. *)
Lemma viem_oracle_failures_are_unavailable_witness :
  outcome (sample_verify (integer 42) "n1" "example.com"
             (sample_input "n1" "example.com") "0xsigned"
             (Some (mkOpts (viem_getFid reverting_read) None))) initial
    = Normal (Resolved (Err (mkConnectError unavailable
                               (CtxCause (mkError "execution reverted"))))).
Proof.
  apply (proj2 (viem_oracle_failures_are_unavailable
                  sample_validate (sample_parseResources (integer 42)) sample_siwe_verify
                  "n1" "example.com" (sample_input "n1" "example.com") "0xsigned"
                  reverting_read None initial)
           (sample_message "n1" "example.com")
           (mkSiweResponse true None (sample_message "n1" "example.com"))
           (mkResources (integer 42)) (mkError "execution reverted")
           eq_refl eq_refl eq_refl eq_refl (or_introl eq_refl)).
Defined.

(** X14 at work: an oracle that knows one address only does as well as
    one that answers 42 to all. *)
Lemma verify_reads_oracle_at_signer_only_witness :
  exec (sample_verify (integer 42) "n1" "example.com"
          (sample_input "n1" "example.com") "0xsigned"
          (Some (mkOpts (resolving_oracle 42) None))) initial
  = exec (sample_verify (integer 42) "n1" "example.com"
            (sample_input "n1" "example.com") "0xsigned"
            (Some (mkOpts (λ a, if bool_decide (a = "0xA")
                                then Normal (Resolved 42%Z)
                                else Thrown (ErrorObject (mkError "unknown address")))
                     None))) initial.
Proof.
  apply (verify_reads_oracle_at_signer_only
           sample_validate (sample_parseResources (integer 42)) sample_siwe_verify
           "n1" "example.com" (sample_input "n1" "example.com") "0xsigned").
  intros a Hcall. vm_compute in Hcall.
  apply elem_of_cons in Hcall as [Hcall|Hcall]; [discriminate|].
  apply elem_of_cons in Hcall as [[= ->]|Hcall]; [reflexivity|].
  apply elem_of_cons in Hcall as [Hcall|Hcall]; [discriminate|].
  by apply elem_of_nil in Hcall.
Defined.

(** X15 at work. *)
Lemma successful_run_events_witness :
  ∃ m z,
    sample_validate (sample_input "n1" "example.com") = Ok m ∧
    integer_value (integer 42) = Some z ∧
    events (sample_verify (integer 42) "n1" "example.com"
              (sample_input "n1" "example.com") "0xsigned"
              (with_oracle (resolving_oracle 42))) initial
      = [EvSiweVerify m "0xsigned" None; EvGetFid "0xA"; EvCompareFid z z].
Proof.
  apply (successful_run_events
           sample_validate (sample_parseResources (integer 42)) sample_siwe_verify
           "n1" "example.com" (sample_input "n1" "example.com") "0xsigned"
           (with_oracle (resolving_oracle 42)) initial
           (mkVerifyResponse (integer 42) true (sample_message "n1" "example.com"))).
  vm_compute. reflexivity.
Defined.
